(** * Plant-disease inference service: label decomposition and HTTP handlers

  A shallow embedding of [backend/app.py]: the label catalog, the
  predictor's post-processing of a class index into a diagnosis record,
  the model loader with its fallback, and the three Flask handlers.
  The deep-learning framework, the image decoder, the base64 decoder and
  the HTTP client are external: they are taken as an interface whose
  calls either return a value or raise. *)

From Stdlib Require Import ZArith Ascii SpecFloat.
From Stdlib Require String.
From stdpp Require Import base option list strings gmap pretty.

Local Open Scope Z_scope.

(** ** Python strings

  A [str] is modelled as a [string] of 8-bit characters; the catalog and
  every literal of the program are ASCII. *)
Module PyStr.

(** [str.lower] on ASCII: the letters A-Z move to a-z. *)
Definition lower_char (c : ascii) : ascii :=
  let n := nat_of_ascii c in
  if ((65 <=? n) && (n <=? 90))%nat then ascii_of_nat (n + 32) else c.

Fixpoint map (f : ascii → ascii) (s : string) : string :=
  match s with
  | EmptyString => EmptyString
  | String c s' => String (f c) (map f s')
  end.

Definition lower (s : string) : string := map lower_char s.

(** [s[n:]] *)
Fixpoint drop (n : nat) (s : string) : string :=
  match n, s with
  | O, _ => s
  | S _, EmptyString => EmptyString
  | S n', String _ s' => drop n' s'
  end.

(** [s.startswith(p)] *)
Definition startswith (p s : string) : bool := String.prefix p s.

(** [sub in s] *)
Fixpoint contains (sub s : string) : bool :=
  String.prefix sub s ||
  match s with
  | EmptyString => false
  | String _ s' => contains sub s'
  end.

(** The leftmost occurrence of [sep] in [s]: what stands before it and
    what follows it. *)
Fixpoint cut (sep s : string) : option (string * string) :=
  if String.prefix sep s then Some (EmptyString, drop (String.length sep) s)
  else match s with
       | EmptyString => None
       | String c s' =>
           match cut sep s' with
           | Some (b, a) => Some (String c b, a)
           | None => None
           end
       end.

(** [s.split(sep)] for a non-empty [sep] (Python raises [ValueError] on an
    empty separator; the program only passes the literals ['___'] and
    [',']). Occurrences are taken left to right and do not overlap. Each
    cut consumes at least one character, so [length s] rounds are enough
    (see [split_unfold]). *)
Fixpoint split_fuel (fuel : nat) (sep s : string) : list string :=
  match fuel with
  | O => [s]
  | S f =>
      match cut sep s with
      | None => [s]
      | Some (b, a) => b :: split_fuel f sep a
      end
  end.

Definition split (sep s : string) : list string :=
  split_fuel (String.length s) sep s.

(** [sep.join(parts)] *)
Definition join (sep : string) (parts : list string) : string :=
  String.concat sep parts.

(** [s.replace(old, new)] for a non-empty [old]: the non-overlapping
    occurrences of [old], left to right, give way to [new]. *)
Definition replace (old new s : string) : string :=
  join new (split old s).

End PyStr.

(** ** Exceptions and fallible calls

    Only subclasses of [Exception] are modelled: every handler of the
    program is an [except Exception] (or narrower). An exception carries
    its class and the text [str(e)] gives; the texts of the exceptions the
    interpreter itself raises are those of CPython 3.11, and no result
    below depends on their wording. *)
Inductive exn_class :=
| TypeError | AttributeError | IndexError | KeyError | ValueError
| OSError | RuntimeError | BadRequest
| RequestException | HTTPError | ConnectionError | Timeout | InvalidURL.

(** [isinstance(e, requests.exceptions.RequestException)]: the base class
    and the classes [requests] derives from it. *)
Definition is_RequestException (c : exn_class) : bool :=
  match c with
  | RequestException | HTTPError | ConnectionError | Timeout | InvalidURL => true
  | _ => false
  end.

Record exn := Exn { exn_cls : exn_class; exn_str : string }.

Inductive result (A : Type) :=
| Ok (a : A)
| Raise (e : exn).
Arguments Ok {A} a.
Arguments Raise {A} e.

Global Instance result_ret : MRet result := @Ok.
Global Instance result_bind : MBind result := λ A B f m,
  match m with
  | Ok a => f a
  | Raise e => Raise e
  end.

(** [try: body  except Exception as e: handler(e)] *)
Definition try_except {A} (body : result A) (handler : exn → result A) : result A :=
  match body with
  | Ok a => Ok a
  | Raise e => handler e
  end.

(** A Python [float]: an IEEE 754 value, sign, mantissa and exponent. No
    arithmetic is done on it here. *)
Definition float := spec_float.

(** ** Python values decoded from JSON *)
#[local] Set Warnings "-register-all".
Inductive json :=
| JNull
| JBool (b : bool)
| JInt (n : Z)
| JFloat (x : float)
| JStr (s : string)
| JArr (items : list json)
| JObj (fields : gmap string json).
#[local] Set Warnings "register-all".

Definition type_name (v : json) : string :=
  match v with
  | JNull => "NoneType" | JBool _ => "bool" | JInt _ => "int"
  | JFloat _ => "float" | JStr _ => "str" | JArr _ => "list" | JObj _ => "dict"
  end.

(** [k == v] for a string [k]: only an equal string compares equal. *)
Definition str_eq_json (k : string) (v : json) : bool :=
  match v with
  | JStr s => bool_decide (k = s)
  | _ => false
  end.

(** [k in data] for a string [k]: key membership on a dict, element
    membership on a list, substring test on a str; the other values are
    not containers. *)
Definition py_in (k : string) (data : json) : result bool :=
  match data with
  | JObj fields => Ok (bool_decide (is_Some (fields !! k)))
  | JArr items => Ok (existsb (str_eq_json k) items)
  | JStr s => Ok (PyStr.contains k s)
  | _ => Raise (Exn TypeError
           ("argument of type '" +:+ type_name data +:+ "' is not iterable"))
  end.

(** [data[k]] for a string [k]. *)
Definition py_getitem (data : json) (k : string) : result json :=
  match data with
  | JObj fields =>
      match fields !! k with
      | Some v => Ok v
      | None => Raise (Exn KeyError ("'" +:+ k +:+ "'"))
      end
  | JArr _ => Raise (Exn TypeError "list indices must be integers or slices, not str")
  | JStr _ => Raise (Exn TypeError "string indices must be integers, not 'str'")
  | _ => Raise (Exn TypeError
           ("'" +:+ type_name data +:+ "' object is not subscriptable"))
  end.

(** [l[i]] on a list: a negative index counts from the end, an index out
    of range raises [IndexError]. *)
Definition py_index {A} (l : list A) (i : Z) : result A :=
  let n := Z.of_nat (length l) in
  let j := if i <? 0 then i + n else i in
  if (j <? 0) || (n <=? j) then Raise (Exn IndexError "list index out of range")
  else match l !! Z.to_nat j with
       | Some x => Ok x
       | None => Raise (Exn IndexError "list index out of range")
       end.

(** ** The label catalog *)
Definition CLASS_NAMES : list string := [
  "Apple___Apple_scab";
  "Apple___Black_rot";
  "Apple___Cedar_apple_rust";
  "Apple___healthy";
  "Blueberry___healthy";
  "Cherry_(including_sour)___healthy";
  "Cherry_(including_sour)___Powdery_mildew";
  "Corn_(maize)___Cercospora_leaf_spot Gray_leaf_spot";
  "Corn_(maize)___Common_rust_";
  "Corn_(maize)___healthy";
  "Corn_(maize)___Northern_Leaf_Blight";
  "Grape___Black_rot";
  "Grape___Esca_(Black_Measles)";
  "Grape___healthy";
  "Grape___Leaf_blight_(Isariopsis_Leaf_Spot)";
  "Orange___Haunglongbing_(Citrus_greening)";
  "Peach___Bacterial_spot";
  "Peach___healthy";
  "Pepper,_bell___Bacterial_spot";
  "Pepper,_bell___healthy";
  "Potato___Early_blight";
  "Potato___healthy";
  "Potato___Late_blight";
  "Raspberry___healthy";
  "Soybean___healthy";
  "Squash___Powdery_mildew";
  "Strawberry___healthy";
  "Strawberry___Leaf_scorch";
  "Strawberry___healthy";
  "Tomato___Bacterial_spot";
  "Tomato___Early_blight";
  "Tomato___Late_blight";
  "Tomato___Leaf_Mold";
  "Tomato___Septoria_leaf_spot";
  "Tomato___Spider_mites Two-spotted_spider_mite";
  "Tomato___Target_Spot";
  "Tomato___Tomato_Yellow_Leaf_Curl_Virus";
  "Tomato___Tomato_mosaic_virus";
  "Tomato___healthy"
].

(** The dict [PlantDiseaseModel.predict] returns. *)
Record DiagnosisResult := {
  className : string;
  confidence : float;
  isHealthy : bool;
  plantType : string;
  diseaseType : option string
}.

(** ** Vocabulary of the specification *)

(** One character giving way to another. *)
Definition subst_char (old new c : ascii) : ascii :=
  if Ascii.eqb c old then new else c.

(** "Every underscore replaced by a space". *)
Definition underscores_to_spaces (s : string) : string :=
  PyStr.map (subst_char "_" " ") s.

(** The text before the leftmost ["___"], the whole label when there is
    none. *)
Definition first_segment (label : string) : string :=
  match PyStr.cut "___" label with
  | Some (b, _) => b
  | None => label
  end.

(** [sub] occurs in [s]. *)
Definition substring_of (sub s : string) : Prop :=
  ∃ pre post, s = pre +:+ sub +:+ post.

(** The characters of the base64 alphabet, padding included. *)
Definition is_base64_char (c : ascii) : bool :=
  let n := nat_of_ascii c in
  (((65 <=? n) && (n <=? 90)) || ((97 <=? n) && (n <=? 122)) ||
   ((48 <=? n) && (n <=? 57)) || (n =? 43) || (n =? 47) || (n =? 61))%nat.

Fixpoint is_base64 (s : string) : bool :=
  match s with
  | EmptyString => true
  | String c s' => is_base64_char c && is_base64 s'
  end.

(** ** The external world

    [torch.load] may hand back any pickled object: a module, [None], or an
    object without an [eval] method (a bare state dict, say). *)
Inductive pyobj (Model : Type) :=
| PyNone
| PyModule (m : Model)
| PyOther.
Arguments PyNone {Model}.
Arguments PyModule {Model} m.
Arguments PyOther {Model}.

Definition bytes := list Byte.byte.

(** [io.BytesIO(data)]: a fresh object around the bytes. [buf_id] stands
    for its identity, the address its [repr] shows; two buffers made for
    two requests need not have the same. *)
Record bytes_io := BytesIO {
  buf_id : Z;
  buf_value : bytes
}.

(** What [requests.get] returns. *)
Record http_response := {
  status_code : Z;
  content : bytes
}.

(** The libraries the service calls. [resnet18 n] stands for
    [models.resnet18(pretrained=False)] with its last layer replaced by
    [nn.Linear(_, n)]; [forward m image] for the preprocessing transform,
    the forward pass, the softmax and [torch.max], giving the confidence
    and the predicted index; [http_error_msg] for the text
    [raise_for_status] composes. [Image.open(_).convert('RGB')] is in two
    parts: whether the bytes are an image, and which one, depends on the
    bytes alone ([image_decode]); the exception raised when they are not
    ([image_error]) depends on the buffer object too, since its text
    names that object. *)
Class Framework (Model Image : Type) := {
  torch_load : string → result (pyobj Model);
  resnet18 : nat → result Model;
  forward : Model → Image → result (float * Z);
  b64decode : string → result bytes;
  image_decode : bytes → option Image;
  image_error : bytes_io → exn;
  requests_get : json → result http_response;
  http_error_msg : http_response → string
}.

(** [Image.open(buffer).convert('RGB')] *)
Definition image_open `{Framework Model Image} (buffer : bytes_io) : result Image :=
  match image_decode (buf_value buffer) with
  | Some image => Ok image
  | None => Raise (image_error buffer)
  end.

(** An HTTP response of the service: status and JSON body. *)
Record response := {
  status : Z;
  body : json
}.

(** [Response.raise_for_status] *)
Definition raise_for_status `{Framework Model Image} (r : http_response) : result unit :=
  if (400 <=? status_code r) && (status_code r <? 600)
  then Raise (Exn HTTPError (http_error_msg r))
  else Ok ().

(** [jsonify({'error': msg})] *)
Definition jsonify_error (msg : string) : json :=
  JObj {[ "error" := JStr msg ]}.

(** [return jsonify({'error': msg}), code] *)
Definition error_response (code : Z) (msg : string) : response :=
  {| status := code; body := jsonify_error msg |}.

Definition jsonify_result (r : DiagnosisResult) : json :=
  JObj (list_to_map [
    ("className", JStr (className r));
    ("confidence", JFloat (confidence r));
    ("isHealthy", JBool (isHealthy r));
    ("plantType", JStr (plantType r));
    ("diseaseType", match diseaseType r with Some d => JStr d | None => JNull end)
  ]).

(** ** The class [PlantDiseaseModel] *)
Module PlantDiseaseModel.
Section Methods.
Context {Model Image : Type} {F : Framework Model Image}.

(** The instance: its [model] attribute. The preprocessing transform is
    part of [forward]. *)
Record t := {
  model : pyobj Model
}.

(** [obj.eval()] *)
Definition py_eval (obj : pyobj Model) : result unit :=
  match obj with
  | PyModule _ => Ok ()
  | PyNone => Raise (Exn AttributeError "'NoneType' object has no attribute 'eval'")
  | PyOther => Raise (Exn AttributeError "object has no attribute 'eval'")
  end.

Definition load_model (self : t) (model_path : string) : result t :=
  try_except
    (loaded ← torch_load model_path;
     let self := {| model := loaded |} in
     _ ← py_eval (model self);
     mret self)
    (λ e,
     dummy ← resnet18 (length CLASS_NAMES);
     let self := {| model := PyModule dummy |} in
     _ ← py_eval (model self);
     mret self).

Definition __init__ (model_path : string) : result t :=
  load_model {| model := PyNone |} model_path.

Definition _extract_plant_type (class_name : string) : result string :=
  part0 ← py_index (PyStr.split "___" class_name) 0;
  mret (PyStr.replace "_" " " part0).

Definition _extract_disease_type (class_name : string) : result (option string) :=
  let parts := PyStr.split "___" class_name in
  if (1 <? Z.of_nat (length parts)) then
    part1 ← py_index parts 1;
    if negb (PyStr.contains "healthy" (PyStr.lower part1))
    then mret (Some (PyStr.replace "_" " " part1))
    else mret None
  else mret None.

(** The dict literal of [predict]. *)
Definition make_result (predicted_class : string) (confidence_score : float)
  : result DiagnosisResult :=
  let healthy := PyStr.contains "healthy" (PyStr.lower predicted_class) in
  plant ← _extract_plant_type predicted_class;
  disease ← (if negb healthy then _extract_disease_type predicted_class
             else mret None);
  mret {| className := predicted_class;
          confidence := confidence_score;
          isHealthy := healthy;
          plantType := plant;
          diseaseType := disease |}.

(** [self.model(input_tensor)] and what surrounds it in [predict]. *)
Definition run_model (self : t) (image : Image) : result (float * Z) :=
  match model self with
  | PyModule m => forward m image
  | PyNone => Raise (Exn TypeError "'NoneType' object is not callable")
  | PyOther => Raise (Exn TypeError "object is not callable")
  end.

(** The [try] block of [predict]. *)
Definition predict_try (self : t) (image : Image) : result DiagnosisResult :=
  '(confidence_score, predicted_idx) ← run_model self image;
  predicted_class ← py_index CLASS_NAMES predicted_idx;
  make_result predicted_class confidence_score.

(** [predict]: [None] stands for the absent result. *)
Definition predict (self : t) (image : Image) : option DiagnosisResult :=
  match predict_try self image with
  | Ok r => Some r
  | Raise e => None
  end.

End Methods.
End PlantDiseaseModel.

(** [model_service = PlantDiseaseModel('plant_disease_model.pth')] *)
Definition model_service `{Framework Model Image} : result (@PlantDiseaseModel.t Model) :=
  PlantDiseaseModel.__init__ "plant_disease_model.pth".

Section Handlers.
Context {Model Image : Type} {F : Framework Model Image}.
Implicit Types (model_service : @PlantDiseaseModel.t Model).

(** ** Flask handlers *)

Definition health_check model_service : response :=
  {| status := 200;
     body := JObj (list_to_map [
       ("status", JStr "healthy");
       ("model_loaded", JBool (match PlantDiseaseModel.model model_service with
                               | PyNone => false
                               | _ => true
                               end))]) |}.

(** The image string of a [/predict] body, the data-URL prefix removed. *)
Definition strip_data_url (image_data : json) : result string :=
  match image_data with
  | JStr s =>
      if PyStr.startswith "data:image" s
      then py_index (PyStr.split "," s) 1
      else mret s
  | _ => Raise (Exn AttributeError
           ("'" +:+ type_name image_data +:+ "' object has no attribute 'startswith'"))
  end.

(** The steps of [/predict] from the body's image field to the image
    bytes. *)
Definition decode_image_data (image_data : json) : result bytes :=
  payload ← strip_data_url image_data;
  b64decode payload.

(** The tail both prediction handlers share: a result dict is truthy,
    [None] is not. *)
Definition respond (result : option DiagnosisResult) : response :=
  match result with
  | Some r => {| status := 200; body := jsonify_result r |}
  | None => error_response 500 "Prediction failed"
  end.

(** [POST /predict]; [get_json] is what [request.get_json()] gives and
    [fresh] the identity of the [BytesIO] object the request allocates. *)
Definition predict model_service
    (get_json : result json) (fresh : Z) : response :=
  match
    data ← get_json;
    has_image ← py_in "image" data;
    if negb has_image
    then mret (error_response 400 "No image provided")
    else
      image_data ← py_getitem data "image";
      image_bytes ← decode_image_data image_data;
      image ← image_open (BytesIO fresh image_bytes);
      mret (respond (PlantDiseaseModel.predict model_service image))
  with
  | Ok resp => resp
  | Raise e => error_response 500 (exn_str e)
  end.

(** [POST /predict_url] *)
Definition predict_from_url model_service
    (get_json : result json) (fresh : Z) : response :=
  match
    data ← get_json;
    has_url ← py_in "url" data;
    if negb has_url
    then mret (error_response 400 "No image URL provided")
    else
      image_url ← py_getitem data "url";
      resp ← requests_get image_url;
      _ ← raise_for_status resp;
      image ← image_open (BytesIO fresh (content resp));
      mret (respond (PlantDiseaseModel.predict model_service image))
  with
  | Ok resp => resp
  | Raise e =>
      if is_RequestException (exn_cls e)
      then error_response 400 ("Failed to download image: " +:+ exn_str e)
      else error_response 500 (exn_str e)
  end.

(** The routes. No handler assigns to [model_service]: the service state
    a request meets is the one initialisation left. A prediction request
    comes with what the interpreter gives while it is handled: the parsed
    body and the identity of the buffer object. *)
Inductive request :=
| GET_health
| POST_predict (get_json : result json) (fresh : Z)
| POST_predict_url (get_json : result json) (fresh : Z).

Definition dispatch model_service (req : request) : response :=
  match req with
  | GET_health => health_check model_service
  | POST_predict get_json fresh => predict model_service get_json fresh
  | POST_predict_url get_json fresh =>
      predict_from_url model_service get_json fresh
  end.

End Handlers.

(** The body [/health] gives once a model is in place. *)
Definition health_ok : response :=
  {| status := 200;
     body := JObj (list_to_map [("status", JStr "healthy");
                                ("model_loaded", JBool true)]) |}.

(** ** A framework for running the handlers on concrete requests

    One model, images that are their own bytes, a base64 decoder that
    hands its argument back; what loading, the forward pass and the HTTP
    client give is chosen per example. *)
Definition stub_framework (load : result (pyobj unit)) (fwd : result (float * Z))
    (get : result http_response) : Framework unit bytes :=
  {| torch_load := λ _, load;
     resnet18 := λ _, Ok ();
     forward := λ _ _, fwd;
     b64decode := λ s, Ok (String.list_byte_of_string s);
     image_decode := λ b, Some b;
     image_error := λ _, Exn OSError "cannot identify image file";
     requests_get := λ _, get;
     http_error_msg := λ _, "404 Client Error" |}.

(** 0.75 *)
Definition three_quarters : float := S754_finite false 3 (-2).

Definition loaded_module : result (pyobj unit) := Ok (PyModule ()).

Definition missing_weights : result (pyobj unit) :=
  Raise (Exn OSError "No such file or directory: 'plant_disease_model.pth'").

Definition unreachable : result http_response :=
  Raise (Exn ConnectionError "Max retries exceeded").

Definition running_service : @PlantDiseaseModel.t unit :=
  {| PlantDiseaseModel.model := PyModule () |}.

(** The forward pass answers index [i] with confidence 0.75. *)
Definition F_index (i : Z) : Framework unit bytes :=
  stub_framework loaded_module (Ok (three_quarters, i)) unreachable.

(** The weights file is missing. *)
Definition F_fallback : Framework unit bytes :=
  stub_framework missing_weights (Ok (three_quarters, 3)) unreachable.

(** The forward pass raises. *)
Definition F_inference_error : Framework unit bytes :=
  stub_framework loaded_module (Raise (Exn RuntimeError "CUDA out of memory"))
    unreachable.

Definition leaf_url : json := JStr "http://nowhere.invalid/leaf.jpg".

(** The base64 text of a GIF file of one pixel. *)
Definition pixel_gif : string :=
  "R0lGODlhAQABAIAAAAAAAP///yH5BAEAAAAALAAAAAABAAEAAAIBRAA7".

(** The two shapes a prediction route's answer can take: a diagnosis of a
    catalog label with status 200, or an error body with status 400 or
    500. *)
Definition diagnosis_response (resp : response) : Prop :=
  status resp = 200 ∧
  ∃ r, body resp = jsonify_result r ∧ className r ∈ CLASS_NAMES.

Definition failure_response (resp : response) : Prop :=
  (status resp = 400 ∨ status resp = 500) ∧
  ∃ msg, body resp = jsonify_error msg.

(** [torch.load] hands back a bare state dict. *)
Definition F_state_dict : Framework unit bytes :=
  stub_framework (Ok PyOther) (Ok (three_quarters, 3)) unreachable.

(** The base64 decoder rejects its argument. *)
Definition F_bad_base64 : Framework unit bytes :=
  {| torch_load := λ _, loaded_module;
     resnet18 := λ _, Ok ();
     forward := λ _ _, Ok (three_quarters, 3);
     b64decode := λ _, Raise (Exn ValueError "Incorrect padding");
     image_decode := λ b, Some b;
     image_error := λ _, Exn OSError "cannot identify image file";
     requests_get := λ _, unreachable;
     http_error_msg := λ _, "404 Client Error" |}.

(** No bytes are an image: the image decoder raises, and the text of its
    exception names the buffer it was given. *)
Definition F_not_an_image : Framework unit bytes :=
  {| torch_load := λ _, loaded_module;
     resnet18 := λ _, Ok ();
     forward := λ _ _, Ok (three_quarters, 3);
     b64decode := λ s, Ok (String.list_byte_of_string s);
     image_decode := λ _, None;
     image_error := λ buffer,
       Exn OSError ("cannot identify image file <_io.BytesIO object at "
                    +:+ pretty (buf_id buffer) +:+ ">");
     requests_get := λ _, unreachable;
     http_error_msg := λ _, "404 Client Error" |}.

(** The download succeeds with status 200 and the given content. *)
Definition F_download (body : bytes) : Framework unit bytes :=
  stub_framework loaded_module (Ok (three_quarters, 3))
    (Ok {| status_code := 200; content := body |}).

(** ** The client script [test_backend.py]

    A run of the script prints lines and ends with a value or an
    exception; a line printed before an exception stays printed. *)
Record io (A : Type) := IO {
  printed : list string;
  outcome : result A
}.
Arguments IO {A} printed outcome.
Arguments printed {A} _.
Arguments outcome {A} _.

Global Instance io_ret : MRet io := λ A a, IO [] (Ok a).
Global Instance io_bind : MBind io := λ A B f m,
  match outcome m with
  | Ok a => IO (printed m ++ printed (f a)) (outcome (f a))
  | Raise e => IO (printed m) (Raise e)
  end.

(** [print(line)] *)
Definition print (line : string) : io unit := IO [line] (Ok ()).

(** A call that prints nothing. *)
Definition call {A} (r : result A) : io A := IO [] r.

(** [try: body  except Exception as e: handler(e)], with output. *)
Definition try_io {A} (body : io A) (handler : exn → io A) : io A :=
  match outcome body with
  | Ok a => body
  | Raise e => IO (printed body ++ printed (handler e)) (outcome (handler e))
  end.

(** What [requests] hands to the script: the status, what [.json()]
    gives (it may raise) and [.text]. *)
Record client_response := {
  c_status_code : Z;
  c_json : result json;
  c_text : string
}.

(** What the script calls: [requests.get] and [requests.post] with their
    timeouts and headers, the chain from [Image.new] to the base64 text
    of the JPEG, and the formatting of interpolated values. *)
Class TestClient := {
  client_get : string → result client_response;
  client_post : string → json → result client_response;
  green_jpeg_base64 : result string;
  str_of_int : Z → string;
  str_of_json : json → string;
  json_dumps : json → string
}.

Definition base_url : string := "http://127.0.0.1:5000".

Definition test_url : string :=
  "https://images.unsplash.com/photo-1416879595882-3373a0480b5b?w=400".

(** A line that starts with a line feed, as ["\nTesting ..."]. *)
Definition nl (line : string) : string := String "010" line.

(** The bodies the script posts. *)
Definition image_payload (image_base64 : string) : json :=
  JObj {[ "image" := JStr image_base64 ]}.

Definition url_payload : json := JObj {[ "url" := JStr test_url ]}.

Section TestBackend.
Context {C : TestClient}.

(** What both prediction blocks do with the response. *)
Definition report (what : string) (response : client_response) : io unit :=
  _ ← print (what +:+ " response: " +:+ str_of_int (c_status_code response));
  if c_status_code response =? 200 then
    result ← call (c_json response);
    print (what +:+ " result: " +:+ json_dumps result)
  else print ("Error: " +:+ c_text response).

(** [test_backend()]: [Some false] is [False], [None] the value of a
    function that ends without [return]. *)
Definition test_backend : io (option bool) :=
  _ ← print "Testing health endpoint...";
  early ← try_io
    (response ← call (client_get (base_url +:+ "/health"));
     body ← call (c_json response);
     _ ← print ("Health check: " +:+ str_of_int (c_status_code response)
                +:+ " - " +:+ str_of_json body);
     mret None)
    (λ e,
     _ ← print ("Health check failed: " +:+ exn_str e);
     mret (Some false));
  match early with
  | Some ret => mret (Some ret)
  | None =>
      _ ← print (nl "Testing image prediction...");
      _ ← try_io
        (image_base64 ← call green_jpeg_base64;
         response ← call (client_post (base_url +:+ "/predict")
                            (image_payload image_base64));
         report "Prediction" response)
        (λ e, print ("Prediction test failed: " +:+ exn_str e));
      _ ← print (nl "Testing URL prediction...");
      _ ← try_io
        (response ← call (client_post (base_url +:+ "/predict_url") url_payload);
         report "URL prediction" response)
        (λ e, print ("URL prediction test failed: " +:+ exn_str e));
      mret None
  end.

End TestBackend.

(** A client for running the script: the health request, the image and
    the posts give what is chosen per example; numbers and JSON are
    printed as fixed marks. *)
Definition stub_client (get : result client_response) (img : result string)
    (post : result client_response) : TestClient :=
  {| client_get := λ _, get;
     client_post := λ _ _, post;
     green_jpeg_base64 := img;
     str_of_int := λ _, "<int>";
     str_of_json := λ _, "<json>";
     json_dumps := λ _, "<json>" |}.

Definition connection_refused {A} : result A :=
  Raise (Exn ConnectionError "Connection refused").

Definition ok_response : client_response :=
  {| c_status_code := 200; c_json := Ok JNull; c_text := "null" |}.

(** * Facts about the string operations *)
Module PyStrFacts.
Import PyStr.
#[local] Arguments String.append : simpl nomatch.

Lemma app_assoc (a b c : string) : (a +:+ b) +:+ c = a +:+ b +:+ c.
Proof. induction a as [|x a IH]; simpl; [done | by rewrite IH]. Qed.

Lemma app_nil_r (a : string) : a +:+ EmptyString = a.
Proof. induction a as [|x a IH]; simpl; [done | by rewrite IH]. Qed.

Lemma length_app (a b : string) :
  String.length (a +:+ b) = (String.length a + String.length b)%nat.
Proof. induction a as [|x a IH]; simpl; [done | by rewrite IH]. Qed.

Lemma map_app f (a b : string) : map f (a +:+ b) = map f a +:+ map f b.
Proof. induction a as [|x a IH]; simpl; [done | by rewrite IH]. Qed.

Lemma lower_app (a b : string) : lower (a +:+ b) = lower a +:+ lower b.
Proof. apply map_app. Qed.

Lemma drop_app (p r : string) : drop (String.length p) (p +:+ r) = r.
Proof. induction p as [|x p IH]; simpl; [by destruct r | done]. Qed.

(** [startswith] against its meaning: [p] followed by something. *)
Lemma prefix_spec (p s : string) :
  String.prefix p s = true ↔ ∃ r, s = p +:+ r.
Proof.
  revert s; induction p as [|x p IH]; intros s; simpl.
  - destruct s; split; eauto.
  - destruct s as [|y s]; simpl.
    + split; [done | by intros [r ?]].
    + destruct (ascii_dec x y) as [->|Hne].
      * rewrite IH. split; intros [r Hr]; exists r; congruence.
      * split; [done | intros [r Hr]; congruence].
Qed.

Lemma prefix_app (p r : string) : String.prefix p (p +:+ r) = true.
Proof. apply prefix_spec; eauto. Qed.

Lemma prefix_drop (p s : string) :
  String.prefix p s = true → s = p +:+ drop (String.length p) s.
Proof. intros [r ->]%prefix_spec. by rewrite drop_app. Qed.

(** [in] against its meaning: the needle stands somewhere in the
    haystack. *)
Lemma contains_spec (sub s : string) :
  contains sub s = true ↔ ∃ pre post, s = pre +:+ sub +:+ post.
Proof.
  induction s as [|x s IH]; cbn [contains].
  - rewrite orb_false_r, prefix_spec. split.
    + intros [r Hr]. by exists EmptyString, r.
    + intros ([|y pre] & post & Hs); simplify_eq/=. eauto.
  - rewrite orb_true_iff, prefix_spec, IH. split.
    + intros [[r Hr] | (pre & post & Hs)].
      * by exists EmptyString, r.
      * exists (String x pre), post. by rewrite Hs.
    + intros ([|y pre] & post & Hs); simplify_eq/=; eauto.
Qed.

Lemma contains_false (sub s : string) :
  contains sub s = false ↔ ∀ pre post, s ≠ pre +:+ sub +:+ post.
Proof.
  rewrite <- not_true_iff_false, contains_spec. split.
  - intros H pre post Hs. apply H; eauto.
  - intros H (pre & post & Hs). by apply (H pre post).
Qed.

(** A needle found in a piece is found in the whole. *)
Lemma contains_app (sub x s y : string) :
  contains sub s = true → contains sub (x +:+ s +:+ y) = true.
Proof.
  rewrite !contains_spec. intros (pre & post & ->).
  exists (x +:+ pre), (post +:+ y). by rewrite !app_assoc.
Qed.

(** ** The leftmost occurrence *)

Lemma cut_None (sep s : string) :
  cut sep s = None ↔ contains sep s = false.
Proof.
  induction s as [|x s IH]; cbn [cut contains].
  - by destruct (String.prefix sep EmptyString).
  - destruct (String.prefix sep (String x s)); [done|].
    rewrite orb_false_l, <- IH. by destruct (cut sep s) as [[b a]|].
Qed.

Lemma cut_Some (sep s b a : string) :
  cut sep s = Some (b, a) → s = b +:+ sep +:+ a.
Proof.
  revert b; induction s as [|x s IH]; intros b; cbn [cut].
  - destruct (String.prefix sep EmptyString) eqn:Hp; [|done].
    intros; simplify_eq. by apply prefix_drop.
  - destruct (String.prefix sep (String x s)) eqn:Hp.
    + intros; simplify_eq. by apply prefix_drop.
    + destruct (cut sep s) as [[b' a']|] eqn:Hc; [|done].
      intros; simplify_eq. simpl. f_equal. by apply IH.
Qed.

(** No occurrence starts before the one [cut] reports. *)
Lemma cut_leftmost (sep s b a : string) :
  cut sep s = Some (b, a) →
  ∀ b' a', s = b' +:+ sep +:+ a' → (String.length b ≤ String.length b')%nat.
Proof.
  revert b; induction s as [|x s IH]; intros b; cbn [cut].
  - destruct (String.prefix sep EmptyString); [|done].
    intros; simplify_eq/=. lia.
  - destruct (String.prefix sep (String x s)) eqn:Hp.
    + intros; simplify_eq/=. lia.
    + destruct (cut sep s) as [[b1 a1]|] eqn:Hc; [|done].
      intros ? [|y b'] a' Hs.
      * simpl in Hs. rewrite Hs, prefix_app in Hp. done.
      * simplify_eq/=. specialize (IH _ eq_refl _ _ eq_refl). lia.
Qed.

(** The text before the leftmost occurrence of [sep] holds no [sep]. *)
Lemma cut_app (sep b a : string) :
  (∀ b' a', b +:+ sep +:+ a = b' +:+ sep +:+ a' →
            (String.length b ≤ String.length b')%nat) →
  cut sep (b +:+ sep +:+ a) = Some (b, a).
Proof.
  intros Hmin.
  destruct (cut sep (b +:+ sep +:+ a)) as [[b1 a1]|] eqn:Hc.
  - pose proof (cut_Some _ _ _ _ Hc) as Hs.
    pose proof (cut_leftmost _ _ _ _ Hc _ _ eq_refl) as Hle.
    pose proof (Hmin _ _ Hs) as Hge.
    assert (b1 = b ∧ sep +:+ a1 = sep +:+ a) as [-> Ha].
    { clear -Hs Hle Hge. revert b1 Hs Hle Hge.
      induction b as [|x b IH]; intros [|y b1] Hs Hle Hge;
        simplify_eq/=; try lia; [done|].
      destruct (IH b1) as [-> ?]; [done | lia | lia | done]. }
    by apply (inj _) in Ha as ->.
  - apply cut_None in Hc. rewrite contains_false in Hc. by destruct (Hc b a).
Qed.

Lemma cut_shorter (sep s b a : string) :
  sep ≠ EmptyString → cut sep s = Some (b, a) →
  (String.length a < String.length s)%nat.
Proof.
  intros Hsep Hc. apply cut_Some in Hc as ->.
  rewrite !length_app. destruct sep; [done | simpl; lia].
Qed.

(** ** [split] does not depend on its fuel *)

Lemma split_fuel_enough (sep s : string) (fuel : nat) :
  sep ≠ EmptyString → (String.length s ≤ fuel)%nat →
  split_fuel fuel sep s = split sep s.
Proof.
  intros Hsep. unfold split.
  remember (String.length s) as n eqn:Hn.
  revert s fuel Hn. induction (lt_wf n) as [n _ IH]; intros s fuel -> Hle.
  destruct s as [|x s].
  - destruct fuel; simpl; [done|].
    destruct sep; [done | by simpl].
  - destruct fuel as [|fuel]; [simpl in Hle; lia|].
    cbn [String.length split_fuel].
    destruct (cut sep (String x s)) as [[b a]|] eqn:Hc; [|done].
    f_equal. pose proof (cut_shorter _ _ _ _ Hsep Hc) as Hlt. simpl in Hlt.
    rewrite (IH (String.length a)) by (simpl in *; lia).
    symmetry. apply (IH (String.length a)); simpl in *; lia.
Qed.

(** The recursion [str.split] follows. *)
Lemma split_unfold (sep s : string) :
  sep ≠ EmptyString →
  split sep s = match cut sep s with
                | None => [s]
                | Some (b, a) => b :: split sep a
                end.
Proof.
  intros Hsep. unfold split at 1. destruct s as [|x s].
  - simpl. destruct sep; [done | by simpl].
  - cbn [String.length split_fuel].
    destruct (cut sep (String x s)) as [[b a]|] eqn:Hc; [|done].
    f_equal. apply split_fuel_enough; [done|].
    pose proof (cut_shorter _ _ _ _ Hsep Hc). simpl in *. lia.
Qed.

(** ** Separators of one character *)

Lemma split_nonempty (sep s : string) :
  sep ≠ EmptyString → ∃ h t, split sep s = h :: t.
Proof.
  intros Hsep. rewrite split_unfold by done.
  destruct (cut sep s) as [[b a]|]; eauto.
Qed.

(** Joining the pieces with the separator gives the string back. *)
Lemma join_split (sep s : string) :
  sep ≠ EmptyString → join sep (split sep s) = s.
Proof.
  intros Hsep. remember (String.length s) as n eqn:Hn. revert s Hn.
  induction (lt_wf n) as [n _ IH]; intros s ->.
  rewrite split_unfold by done.
  destruct (cut sep s) as [[b a]|] eqn:Hc; [|done].
  pose proof (cut_shorter _ _ _ _ Hsep Hc) as Hlt.
  apply cut_Some in Hc as ->.
  specialize (IH _ Hlt a eq_refl). unfold join in *.
  destruct (split_nonempty sep a Hsep) as (h & t & Heq).
  rewrite Heq in *.
  change (String.concat sep (b :: h :: t))
    with (b +:+ sep +:+ String.concat sep (h :: t)).
  by rewrite IH.
Qed.

Lemma cut_char_eq (c : ascii) (s : string) :
  cut (String c EmptyString) (String c s) = Some (EmptyString, s).
Proof.
  cbn [cut String.prefix]. destruct (ascii_dec c c) as [_|Hne]; [|done].
  by destruct s.
Qed.

Lemma cut_char_ne (c x : ascii) (s : string) :
  x ≠ c →
  cut (String c EmptyString) (String x s) =
    match cut (String c EmptyString) s with
    | Some (b, a) => Some (String x b, a)
    | None => None
    end.
Proof. intros Hne. cbn [cut String.prefix]. by destruct (ascii_dec c x). Qed.

Lemma split_char_eq (c : ascii) (s : string) :
  split (String c EmptyString) (String c s) =
    EmptyString :: split (String c EmptyString) s.
Proof. by rewrite split_unfold, cut_char_eq. Qed.

Lemma split_char_ne (c x : ascii) (s : string) :
  x ≠ c →
  split (String c EmptyString) (String x s) =
    match split (String c EmptyString) s with
    | h :: t => String x h :: t
    | [] => []
    end.
Proof.
  intros Hne. rewrite (split_unfold _ (String x s)), (split_unfold _ s) by done.
  rewrite cut_char_ne by done.
  by destruct (cut (String c EmptyString) s) as [[b a]|].
Qed.

(** Replacing one character by another is a character-wise map. *)
Lemma replace_char (old new : ascii) (s : string) :
  replace (String old EmptyString) (String new EmptyString) s =
    map (subst_char old new) s.
Proof.
  unfold replace, join. induction s as [|x s IH].
  - done.
  - cbn [map]. unfold subst_char at 1. destruct (Ascii.eqb_spec x old) as [->|Hne].
    + rewrite split_char_eq, <- IH.
      destruct (split_nonempty (String old EmptyString) s) as (h & t & ->); done.
    + rewrite split_char_ne, <- IH by done.
      destruct (split_nonempty (String old EmptyString) s) as (h & t & ->); [done|].
      by destruct t.
Qed.

(** A separator character that occurs neither before nor after its one
    occurrence splits the string in two. *)
Lemma cut_char_app (c : ascii) (b a : string) :
  contains (String c EmptyString) b = false →
  cut (String c EmptyString) (b +:+ String c a) = Some (b, a).
Proof.
  induction b as [|x b IH]; intros Hb.
  - apply cut_char_eq.
  - cbn [contains] in Hb. apply orb_false_iff in Hb as [Hx Hb].
    assert (x ≠ c) as Hne.
    { intros ->. pose proof (prefix_app (String c EmptyString) b) as Hp.
      change (String c EmptyString +:+ b) with (String c b) in Hp. congruence. }
    change (String x b +:+ String c a) with (String x (b +:+ String c a)).
    by rewrite cut_char_ne, IH.
Qed.

Lemma split_char_two (c : ascii) (b a : string) :
  contains (String c EmptyString) b = false →
  contains (String c EmptyString) a = false →
  split (String c EmptyString) (b +:+ String c a) = [b; a].
Proof.
  intros Hb Ha. rewrite split_unfold, cut_char_app by done.
  rewrite split_unfold by done. apply cut_None in Ha. by rewrite Ha.
Qed.

Lemma contains_char_app (c : ascii) (x y : string) :
  contains (String c EmptyString) (x +:+ y) =
    contains (String c EmptyString) x || contains (String c EmptyString) y.
Proof.
  induction x as [|a x IH].
  - cbn [contains String.prefix]. by rewrite orb_false_r.
  - change (String a x +:+ y) with (String a (x +:+ y)).
    cbn [contains String.prefix]. rewrite IH.
    destruct (ascii_dec c a); [|done].
    assert (∀ s, String.prefix EmptyString s = true) as Hp by (by intros []).
    by rewrite !Hp.
Qed.

(** ** Base64 text *)

Lemma is_base64_no_comma (s : string) :
  is_base64 s = true → contains "," s = false.
Proof.
  induction s as [|a s IH]; [done|].
  cbn [is_base64 contains String.prefix].
  intros [Ha Hs]%andb_true_iff. rewrite (IH Hs), orb_false_r.
  destruct (ascii_dec "," a) as [<-|]; [|done]. by vm_compute in Ha.
Qed.

Lemma is_base64_not_data_url (s : string) :
  is_base64 s = true → startswith "data:image" s = false.
Proof.
  intros Hs. apply not_true_iff_false. intros [r ->]%prefix_spec.
  cbn [String.append is_base64] in Hs.
  by repeat (apply andb_true_iff in Hs as [_ Hs]; try done).
Qed.

End PyStrFacts.

(** * The label decomposer *)
Module LabelFacts.
Import PyStr PyStrFacts.

Lemma py_index_nat {A} (l : list A) (i : nat) :
  py_index l (Z.of_nat i) =
    match l !! i with
    | Some x => Ok x
    | None => Raise (Exn IndexError "list index out of range")
    end.
Proof.
  unfold py_index. cbv zeta.
  assert ((Z.of_nat i <? 0) = false) as Hneg by (apply Z.ltb_ge; lia).
  rewrite !Hneg, orb_false_l, Nat2Z.id.
  destruct (Z.leb_spec (Z.of_nat (length l)) (Z.of_nat i)) as [Hge|Hlt]; [|done].
  rewrite (lookup_ge_None_2 l i) by lia. done.
Qed.

Lemma extract_plant_type_eq (label : string) :
  PlantDiseaseModel._extract_plant_type label =
    Ok (underscores_to_spaces (first_segment label)).
Proof.
  unfold PlantDiseaseModel._extract_plant_type, first_segment, underscores_to_spaces.
  rewrite split_unfold by done.
  destruct (cut "___" label) as [[b a]|];
    rewrite (py_index_nat _ 0); cbn; by rewrite replace_char.
Qed.

Lemma extract_disease_type_eq (label : string) :
  PlantDiseaseModel._extract_disease_type label =
    Ok (match split "___" label with
        | _ :: part1 :: _ =>
            if contains "healthy" (lower part1) then None
            else Some (underscores_to_spaces part1)
        | _ => None
        end).
Proof.
  unfold PlantDiseaseModel._extract_disease_type, underscores_to_spaces.
  destruct (split "___" label) as [|h [|part1 t]]; [done..|].
  destruct (Z.ltb_spec 1 (Z.of_nat (length (h :: part1 :: t)))) as [_|Hle];
    [|simpl in Hle; lia].
  rewrite (py_index_nat _ 1). cbn [lookup list_lookup mbind result_bind].
  destruct (contains "healthy" (lower part1)); cbn; [done|].
  by rewrite replace_char.
Qed.

(** ** [PlantDiseaseModel.make_result] never raises; its entries in closed form *)
Lemma make_result_eq (label : string) (conf : float) :
  PlantDiseaseModel.make_result label conf =
    Ok {| className := label;
          confidence := conf;
          isHealthy := contains "healthy" (lower label);
          plantType := underscores_to_spaces (first_segment label);
          diseaseType :=
            if contains "healthy" (lower label) then None
            else match split "___" label with
                 | _ :: part1 :: _ =>
                     if contains "healthy" (lower part1) then None
                     else Some (underscores_to_spaces part1)
                 | _ => None
                 end |}.
Proof.
  unfold PlantDiseaseModel.make_result. rewrite extract_plant_type_eq.
  cbn [mbind result_bind].
  destruct (contains "healthy" (lower label)); cbn [negb]; [done|].
  by rewrite extract_disease_type_eq.
Qed.

Lemma py_index_in_range {A} (l : list A) (i : Z) :
  0 ≤ i < Z.of_nat (length l) →
  ∃ x, py_index l i = Ok x ∧ l !! Z.to_nat i = Some x.
Proof.
  intros Hi. assert (∃ n, i = Z.of_nat n) as [n ->] by (exists (Z.to_nat i); lia).
  rewrite py_index_nat, Nat2Z.id.
  destruct (lookup_lt_is_Some_2 l n) as [x Hx]; [lia|].
  rewrite Hx. eauto.
Qed.

Lemma py_index_beyond {A} (l : list A) (i : Z) :
  Z.of_nat (length l) ≤ i →
  py_index l i = Raise (Exn IndexError "list index out of range").
Proof.
  intros Hi. assert (∃ n, i = Z.of_nat n) as [n ->] by (exists (Z.to_nat i); lia).
  rewrite py_index_nat, lookup_ge_None_2 by lia. done.
Qed.

Lemma py_index_elem_of {A} (l : list A) (i : Z) (x : A) :
  py_index l i = Ok x → x ∈ l.
Proof.
  unfold py_index. cbv zeta.
  destruct (_ || _); [done|].
  destruct (l !! _) as [y|] eqn:Hl; [|done].
  intros [= <-]. by eapply list_elem_of_lookup_2.
Qed.

Lemma CLASS_NAMES_length : length CLASS_NAMES = 39%nat.
Proof. reflexivity. Qed.

(** Apart from the entry at index 28, the labels are pairwise distinct. *)
Lemma CLASS_NAMES_distinct_but_one : NoDup (delete 28%nat CLASS_NAMES).
Proof. apply (bool_decide_unpack _). by vm_compute. Qed.

Lemma make_result_total (label : string) (conf : float) :
  ∃ r, PlantDiseaseModel.make_result label conf = Ok r.
Proof. rewrite make_result_eq. eauto. Qed.

(** The second segment is a piece of the label. *)
Lemma split_second_piece (sep label h part1 : string) (t : list string) :
  sep ≠ EmptyString → split sep label = h :: part1 :: t →
  ∃ rest, label = h +:+ sep +:+ part1 +:+ rest.
Proof.
  intros Hsep. rewrite split_unfold by done.
  destruct (cut sep label) as [[b a]|] eqn:Hc; [|done].
  apply cut_Some in Hc as ->. rewrite split_unfold by done.
  destruct (cut sep a) as [[b' a']|] eqn:Hc'; intros; simplify_eq.
  - apply cut_Some in Hc' as ->. by exists (sep +:+ a').
  - exists EmptyString. by rewrite app_nil_r.
Qed.

(** A label that is not healthy has no healthy second segment: the inner
    test of [_extract_disease_type] never fires under the guard of
    [predict]. *)
Lemma healthy_segment_healthy_label (label h part1 : string) (t : list string) :
  split "___" label = h :: part1 :: t →
  contains "healthy" (lower part1) = true →
  contains "healthy" (lower label) = true.
Proof.
  intros Hs Hp. apply split_second_piece in Hs as [rest ->]; [|done].
  rewrite <- app_assoc, !lower_app. by apply contains_app.
Qed.





End LabelFacts.

(** * The catalog and the label decomposer: main results *)
Section LabelTheorems.
Import PyStr PyStrFacts LabelFacts.

(** C1. For every label string the dict the predictor builds exists,
    carries the label, and its [isHealthy] entry is true exactly when the
    lowercased label contains the substring "healthy"; the labels of the
    catalog are instances. *)
Theorem isHealthy_iff_lowercase_contains_healthy (label : string) (conf : float) :
  ∃ r, PlantDiseaseModel.make_result label conf = Ok r ∧
       className r = label ∧
       (isHealthy r = true ↔ substring_of "healthy" (lower label)).
Proof.
  eexists. split; [apply make_result_eq|]. cbn [className isHealthy].
  split; [done | apply contains_spec].
Qed.



(** C3 (the catalog is not duplicate-free). Indices 26 and 28 both hold
    "Strawberry___healthy", so the catalog is not a list of unique
    strings. *)
Theorem CLASS_NAMES_duplicate :
  CLASS_NAMES !! 26%nat = Some "Strawberry___healthy" ∧
  CLASS_NAMES !! 28%nat = Some "Strawberry___healthy" ∧
  ¬ NoDup CLASS_NAMES.
Proof.
  split_and!; [done..|].
  intros Hnd. by pose proof (NoDup_lookup _ 26%nat 28%nat _ Hnd eq_refl eq_refl).
Qed.

End LabelTheorems.

(** * The predictor, the loader and the handlers *)

(** Running a handler one call at a time: rewrite with what the call
    gives, then let the bind proceed. *)
Ltac run_bind := cbn [mbind result_bind mret result_ret negb].
Ltac step H := rewrite H; run_bind.

Section ServiceFacts.
Context {Model Image : Type} {F : Framework Model Image}.
Implicit Types (self ms : @PlantDiseaseModel.t Model) (image : Image).
Import LabelFacts.

(** What a returned diagnosis is made of. *)
Lemma predict_Some_inv self image (r : DiagnosisResult) :
  PlantDiseaseModel.predict self image = Some r →
  ∃ conf idx label,
    PlantDiseaseModel.run_model self image = Ok (conf, idx) ∧
    py_index CLASS_NAMES idx = Ok label ∧
    PlantDiseaseModel.make_result label conf = Ok r.
Proof.
  unfold PlantDiseaseModel.predict, PlantDiseaseModel.predict_try.
  destruct (PlantDiseaseModel.run_model self image)
    as [[conf idx]|e] eqn:Hm; [|done].
  run_bind.
  destruct (py_index CLASS_NAMES idx) as [label|e] eqn:Hi; [|done].
  run_bind.
  destruct (PlantDiseaseModel.make_result label conf)
    as [r'|e] eqn:Hr; [|done].
  intros [= <-]. by exists conf, idx, label.
Qed.

(** The [try] block raises exactly when the framework does or the index
    misses the catalog: building the dict never raises. *)
Lemma predict_try_raises self image (e : exn) :
  PlantDiseaseModel.predict_try self image = Raise e ↔
    PlantDiseaseModel.run_model self image = Raise e ∨
    ∃ conf idx, PlantDiseaseModel.run_model self image = Ok (conf, idx) ∧
                py_index CLASS_NAMES idx = Raise e.
Proof.
  unfold PlantDiseaseModel.predict_try.
  destruct (PlantDiseaseModel.run_model self image)
    as [[conf idx]|e0] eqn:Hm; run_bind.
  - destruct (py_index CLASS_NAMES idx) as [label|e0] eqn:Hi; run_bind.
    + rewrite make_result_eq. split; [done|].
      intros [?|(c & i & Heq & Hidx)]; [done|].
      injection Heq as <- <-. congruence.
    + split.
      * intros [= ->]. right. by exists conf, idx.
      * intros [?|(c & i & Heq & Hidx)]; [done|].
        injection Heq as <- <-. congruence.
  - split; [intros [= ->]; by left|].
    by intros [[= ->]|(c & i & Heq & _)].
Qed.

(** A returned diagnosis names a label of the catalog, and its health
    flag is the substring test on that label. *)
Lemma predict_Some_catalog self image (r : DiagnosisResult) :
  PlantDiseaseModel.predict self image = Some r →
  className r ∈ CLASS_NAMES ∧
  (isHealthy r = true ↔ substring_of "healthy" (PyStr.lower (className r))).
Proof.
  intros (conf & idx & label & _ & Hi & Hr)%predict_Some_inv.
  rewrite make_result_eq in Hr. injection Hr as <-.
  cbn [className isHealthy]. split.
  - by eapply py_index_elem_of.
  - apply PyStrFacts.contains_spec.
Qed.

Lemma predict_try_None self image (e : exn) :
  PlantDiseaseModel.predict_try self image = Raise e →
  PlantDiseaseModel.predict self image = None.
Proof. unfold PlantDiseaseModel.predict. by intros ->. Qed.

(** The loader ends with a module in place whenever the fallback network
    can be built. *)
Lemma init_total (model_path : string) (dummy : Model) :
  resnet18 (length CLASS_NAMES) = Ok dummy →
  ∃ ms, PlantDiseaseModel.__init__ model_path = Ok ms.
Proof.
  intros Hd.
  unfold PlantDiseaseModel.__init__, PlantDiseaseModel.load_model, try_except.
  destruct (torch_load model_path) as [[|m|]|e];
    cbn -[CLASS_NAMES]; rewrite ?Hd; cbn; eauto.
Qed.

Lemma init_loaded (model_path : string) (m : Model) :
  torch_load model_path = Ok (PyModule m) →
  PlantDiseaseModel.__init__ model_path =
    Ok {| PlantDiseaseModel.model := PyModule m |}.
Proof.
  intros Hl.
  unfold PlantDiseaseModel.__init__, PlantDiseaseModel.load_model, try_except.
  by rewrite Hl.
Qed.

Lemma init_fallback (model_path : string) (e : exn) (dummy : Model) :
  torch_load model_path = Raise e →
  resnet18 (length CLASS_NAMES) = Ok dummy →
  PlantDiseaseModel.__init__ model_path =
    Ok {| PlantDiseaseModel.model := PyModule dummy |}.
Proof.
  intros Hl Hd.
  unfold PlantDiseaseModel.__init__, PlantDiseaseModel.load_model, try_except.
  rewrite Hl. cbn -[CLASS_NAMES]. by rewrite Hd.
Qed.

(** ** The data-URL prefix *)

Lemma strip_data_url_bare (s : string) :
  PyStr.startswith "data:image" s = false → strip_data_url (JStr s) = Ok s.
Proof. unfold strip_data_url. by intros ->. Qed.

Lemma strip_data_url_prefixed (mime s : string) :
  PyStr.contains "," mime = false → PyStr.contains "," s = false →
  strip_data_url (JStr ("data:image/" +:+ mime +:+ ";base64," +:+ s)) = Ok s.
Proof.
  intros Hmime Hs. unfold strip_data_url.
  assert (PyStr.startswith "data:image"
            ("data:image/" +:+ mime +:+ ";base64," +:+ s) = true) as ->.
  { apply PyStrFacts.prefix_spec.
    by exists ("/" +:+ mime +:+ ";base64," +:+ s). }
  assert ("data:image/" +:+ mime +:+ ";base64," +:+ s =
          ("data:image/" +:+ mime +:+ ";base64") +:+ String "," s) as ->.
  { by rewrite !PyStrFacts.app_assoc. }
  rewrite PyStrFacts.split_char_two.
  - by rewrite (py_index_nat _ 1).
  - by rewrite !PyStrFacts.contains_char_app, Hmime.
  - done.
Qed.

(** The prefixed and the bare field hand the same string to the base64
    decoder, for any payload that has no comma and does not itself start
    with "data:image". *)
Lemma decode_image_data_prefixed (mime s : string) :
  PyStr.contains "," mime = false → PyStr.contains "," s = false →
  PyStr.startswith "data:image" s = false →
  decode_image_data (JStr ("data:image/" +:+ mime +:+ ";base64," +:+ s)) =
    decode_image_data (JStr s).
Proof.
  intros Hmime Hcomma Hbare. unfold decode_image_data.
  by rewrite strip_data_url_prefixed, strip_data_url_bare.
Qed.

End ServiceFacts.

Section ServiceTheorems.
Context {Model Image : Type} {F : Framework Model Image}.
Implicit Types (self ms : @PlantDiseaseModel.t Model) (image : Image).
Import LabelFacts.

(** C4 (amended). Nothing compares the catalog's size with the model's
    output dimensionality. A predicted index inside the catalog, 0 to 38,
    is mapped to the label at that index and the prediction completes
    with status 200, whatever the model's dimensionality; an index of 39
    or more makes the lookup raise, the predictor returns the absent
    result and the handler's answer is 500 "Prediction failed". *)
Theorem index_to_label_mapping self image (m : Model) (conf : float) (idx : Z) :
  PlantDiseaseModel.model self = PyModule m →
  forward m image = Ok (conf, idx) →
  (0 ≤ idx < 39 →
     ∃ r label, CLASS_NAMES !! Z.to_nat idx = Some label ∧
       PlantDiseaseModel.make_result label conf = Ok r ∧
       PlantDiseaseModel.predict self image = Some r ∧
       respond (PlantDiseaseModel.predict self image) =
         {| status := 200; body := jsonify_result r |}) ∧
  (39 ≤ idx →
     PlantDiseaseModel.predict self image = None ∧
     respond (PlantDiseaseModel.predict self image) =
       error_response 500 "Prediction failed").
Proof.
  intros Hm Hf.
  assert (PlantDiseaseModel.run_model self image = Ok (conf, idx)) as Hrun.
  { unfold PlantDiseaseModel.run_model. by rewrite Hm. }
  split; intros Hidx.
  - destruct (py_index_in_range CLASS_NAMES idx) as (label & Hi & Hl);
      [simpl; lia|].
    destruct (make_result_total label conf) as [r Hr].
    assert (PlantDiseaseModel.predict self image = Some r) as Hp.
    { unfold PlantDiseaseModel.predict, PlantDiseaseModel.predict_try.
      step Hrun. step Hi. by rewrite Hr. }
    exists r, label. by rewrite Hp.
  - assert (PlantDiseaseModel.predict self image = None) as Hp.
    { unfold PlantDiseaseModel.predict, PlantDiseaseModel.predict_try.
      step Hrun. rewrite py_index_beyond; [done | simpl; lia]. }
    by rewrite Hp.
Qed.

(** C5. Once initialisation has completed, with the loaded weights or
    with the fallback network, the model is not [None] and [GET /health]
    answers 200 with [model_loaded] true. *)
Theorem health_after_init (model_path : string) ms :
  PlantDiseaseModel.__init__ model_path = Ok ms →
  PlantDiseaseModel.model ms ≠ PyNone ∧
  (∃ m, PlantDiseaseModel.model ms = PyModule m ∧
        (torch_load model_path = Ok (PyModule m) ∨
         resnet18 (length CLASS_NAMES) = Ok m)) ∧
  dispatch ms GET_health = health_ok.
Proof.
  unfold PlantDiseaseModel.__init__, PlantDiseaseModel.load_model, try_except.
  destruct (torch_load model_path) as [[|m|]|e] eqn:Hl; cbn -[CLASS_NAMES];
    try (destruct (resnet18 (length CLASS_NAMES)) as [dummy|e'] eqn:Hd;
         cbn -[CLASS_NAMES]);
    intros [= <-]; cbn [PlantDiseaseModel.model];
    (split_and!; [done | eauto | done]).
Qed.

(** C6. When the [try] block of the predictor raises, the predictor
    returns the absent result, and both prediction handlers, the image
    once obtained, answer 500 with the body [{"error": "Prediction
    failed"}]. *)
Theorem inference_exception_gives_generic_500 self image (e : exn) :
  PlantDiseaseModel.predict_try self image = Raise e →
  PlantDiseaseModel.predict self image = None ∧
  (∀ get_json data image_data image_bytes fresh,
     get_json = Ok data → py_in "image" data = Ok true →
     py_getitem data "image" = Ok image_data →
     decode_image_data image_data = Ok image_bytes →
     image_open (BytesIO fresh image_bytes) = Ok image →
     predict self get_json fresh = error_response 500 "Prediction failed") ∧
  (∀ get_json data image_url resp fresh,
     get_json = Ok data → py_in "url" data = Ok true →
     py_getitem data "url" = Ok image_url →
     requests_get image_url = Ok resp → raise_for_status resp = Ok () →
     image_open (BytesIO fresh (content resp)) = Ok image →
     predict_from_url self get_json fresh =
       error_response 500 "Prediction failed").
Proof.
  intros He. pose proof (predict_try_None _ _ _ He) as Hp. split_and!.
  - done.
  - intros * -> Hin Hget Hdec Hopen. unfold predict. run_bind.
    step Hin. step Hget. step Hdec. step Hopen. by rewrite Hp.
  - intros * -> Hin Hget Hreq Hst Hopen. unfold predict_from_url. run_bind.
    step Hin. step Hget. step Hreq. step Hst. step Hopen. by rewrite Hp.
Qed.

(** C7. A [/predict] body that is an object without an "image" key is
    answered 400 with the body [{"error": "No image provided"}]. *)
Theorem missing_image_field_400 self (fields : gmap string json) (fresh : Z) :
  fields !! "image" = None →
  predict self (Ok (JObj fields)) fresh =
    error_response 400 "No image provided".
Proof.
  intros Hk. unfold predict. cbn [mbind result_bind py_in].
  rewrite Hk. by rewrite bool_decide_eq_false_2 by (by intros [? ?]).
Qed.

(** C8 (amended). For a base64 string [s] and a media subtype without a
    comma, the body field ["data:image/<subtype>;base64," + s] and the
    bare [s] both hand [s] itself to the base64 decoder, so they decode
    to the same image bytes. The two answers have the same status, and
    they are identical whenever the image decoder accepts those bytes;
    when it rejects them each answer is a 500 whose text names the
    buffer of its own request. *)
Theorem data_url_prefix_same_prediction self (mime s : string)
    (fields : gmap string json) (fresh1 fresh2 : Z) :
  is_base64 s = true → PyStr.contains "," mime = false →
  strip_data_url (JStr ("data:image/" +:+ mime +:+ ";base64," +:+ s)) = Ok s ∧
  strip_data_url (JStr s) = Ok s ∧
  decode_image_data (JStr ("data:image/" +:+ mime +:+ ";base64," +:+ s)) =
    b64decode s ∧
  decode_image_data (JStr s) = b64decode s ∧
  status (predict self
    (Ok (JObj (<["image" :=
                 JStr ("data:image/" +:+ mime +:+ ";base64," +:+ s)]> fields)))
    fresh1) =
    status (predict self (Ok (JObj (<["image" := JStr s]> fields))) fresh2) ∧
  ((∀ image_bytes, b64decode s = Ok image_bytes →
                   is_Some (image_decode image_bytes)) →
   predict self
     (Ok (JObj (<["image" :=
                  JStr ("data:image/" +:+ mime +:+ ";base64," +:+ s)]> fields)))
     fresh1 =
     predict self (Ok (JObj (<["image" := JStr s]> fields))) fresh2).
Proof.
  intros Hs Hmime.
  pose proof (PyStrFacts.is_base64_no_comma _ Hs) as Hcomma.
  pose proof (PyStrFacts.is_base64_not_data_url _ Hs) as Hbare.
  pose proof (strip_data_url_prefixed mime s Hmime Hcomma) as Hp.
  pose proof (strip_data_url_bare s Hbare) as Hb.
  split_and!; [done | done | | | |].
  - unfold decode_image_data. by rewrite Hp.
  - unfold decode_image_data. by rewrite Hb.
  - unfold predict, decode_image_data.
    cbn [mbind result_bind py_in py_getitem]. rewrite !lookup_insert_eq.
    rewrite !bool_decide_eq_true_2 by eauto. run_bind. step Hp. step Hb.
    destruct (b64decode s) as [image_bytes|e]; run_bind; [|done].
    unfold image_open. cbn [buf_value].
    by destruct (image_decode image_bytes).
  - intros Himage. unfold predict, decode_image_data.
    cbn [mbind result_bind py_in py_getitem]. rewrite !lookup_insert_eq.
    rewrite !bool_decide_eq_true_2 by eauto. run_bind. step Hp. step Hb.
    destruct (b64decode s) as [image_bytes|e] eqn:Hd; run_bind; [|done].
    unfold image_open. cbn [buf_value].
    by destruct (Himage image_bytes eq_refl) as [image ->].
Qed.

(** C9. On [/predict_url], a failure of the download, be it an exception
    of the HTTP client or an error status of the server, is answered 400
    with a non-empty message; a failure after a successful download is
    answered 500. *)
Theorem predict_url_failure_statuses self (get_json : result json)
    (data image_url : json) (fresh : Z) :
  get_json = Ok data → py_in "url" data = Ok true →
  py_getitem data "url" = Ok image_url →
  (∀ e, requests_get image_url = Raise e →
        is_RequestException (exn_cls e) = true →
        predict_from_url self get_json fresh =
          error_response 400 ("Failed to download image: " +:+ exn_str e) ∧
        "Failed to download image: " +:+ exn_str e ≠ EmptyString) ∧
  (∀ resp, requests_get image_url = Ok resp →
        400 ≤ status_code resp < 600 →
        predict_from_url self get_json fresh =
          error_response 400 ("Failed to download image: " +:+ http_error_msg resp) ∧
        "Failed to download image: " +:+ http_error_msg resp ≠ EmptyString) ∧
  (∀ resp, requests_get image_url = Ok resp →
        raise_for_status resp = Ok () →
        (∀ e, image_open (BytesIO fresh (content resp)) = Raise e →
              is_RequestException (exn_cls e) = false →
              predict_from_url self get_json fresh =
                error_response 500 (exn_str e)) ∧
        (∀ image, image_open (BytesIO fresh (content resp)) = Ok image →
              PlantDiseaseModel.predict self image = None →
              predict_from_url self get_json fresh =
                error_response 500 "Prediction failed")).
Proof.
  intros -> Hin Hget. unfold predict_from_url. run_bind.
  step Hin. step Hget. split_and!.
  - intros e -> He. run_bind. by rewrite He.
  - intros resp -> Hst. run_bind. unfold raise_for_status.
    destruct (Z.leb_spec 400 (status_code resp)); [|lia].
    destruct (Z.ltb_spec (status_code resp) 600); [|lia]. done.
  - intros resp -> Hst. run_bind. step Hst. split.
    + intros e -> He. run_bind. by rewrite He.
    + intros image -> Hp. run_bind. by rewrite Hp.
Qed.

(** C10 (amended). A [/predict] body that is null, a boolean or a number
    makes the membership test raise, and the answer is 500 with the
    exception text. A body that is a string or an array does not: without
    "image" as a substring (an element, for an array) the answer is 400
    "No image provided"; with it, the subscript raises and the answer is
    500 with the exception text. *)
Theorem non_object_body_responses self (data : json) (fresh : Z) :
  match data with
  | JObj _ => True
  | JStr s =>
      py_in "image" data = Ok (PyStr.contains "image" s) ∧
      if PyStr.contains "image" s
      then ∃ e, py_getitem data "image" = Raise e ∧
                predict self (Ok data) fresh =
                  error_response 500 (exn_str e)
      else predict self (Ok data) fresh =
             error_response 400 "No image provided"
  | JArr items =>
      py_in "image" data = Ok (existsb (str_eq_json "image") items) ∧
      if existsb (str_eq_json "image") items
      then ∃ e, py_getitem data "image" = Raise e ∧
                predict self (Ok data) fresh =
                  error_response 500 (exn_str e)
      else predict self (Ok data) fresh =
             error_response 400 "No image provided"
  | _ => ∃ e, py_in "image" data = Raise e ∧
              predict self (Ok data) fresh =
                error_response 500 (exn_str e)
  end.
Proof.
  destruct data as [| b | n | x | s | items | fields];
    [eexists; split; reflexivity.. | | | done].
  - split; [done|]. unfold predict. cbn [mbind result_bind py_in].
    destruct (PyStr.contains "image" s); [|done].
    eexists; split; reflexivity.
  - split; [done|]. unfold predict. cbn [mbind result_bind py_in].
    destruct (existsb (str_eq_json "image") items); [|done].
    eexists; split; reflexivity.
Qed.

End ServiceTheorems.

(** * The theorems at concrete requests *)

(** C4, as first stated, fails: with a model that answers index 39, one
    past the catalog, the predictor returns the absent result and
    [/predict] answers 500 instead of completing with a label. *)
Lemma out_of_range_index_surfaces_error :
  forward (Framework := F_index 39) () [] = Ok (three_quarters, 39) ∧
  PlantDiseaseModel.predict (F := F_index 39) running_service [] = None ∧
  predict (F := F_index 39) running_service
    (Ok (JObj {[ "image" := JStr "AAAA" ]})) 0 =
    error_response 500 "Prediction failed".
Proof. split_and!; reflexivity. Qed.

Lemma index_to_label_mapping_witness :
  PlantDiseaseModel.model running_service = PyModule () ∧
  forward (Framework := F_index 28) () [] = Ok (three_quarters, 28) ∧
  (0 ≤ 28 < 39 →
     ∃ r label, CLASS_NAMES !! Z.to_nat 28 = Some label ∧
       PlantDiseaseModel.make_result label three_quarters = Ok r ∧
       PlantDiseaseModel.predict (F := F_index 28) running_service [] = Some r ∧
       respond (PlantDiseaseModel.predict (F := F_index 28) running_service []) =
         {| status := 200; body := jsonify_result r |}) ∧
  (39 ≤ 28 →
     PlantDiseaseModel.predict (F := F_index 28) running_service [] = None ∧
     respond (PlantDiseaseModel.predict (F := F_index 28) running_service []) =
       error_response 500 "Prediction failed").
Proof.
  split; [reflexivity|]. split; [reflexivity|].
  exact (index_to_label_mapping (F := F_index 28) running_service [] ()
           three_quarters 28 eq_refl eq_refl).
Defined.

Lemma health_after_init_witness :
  PlantDiseaseModel.__init__ (F := F_fallback) "plant_disease_model.pth" =
    Ok running_service ∧
  PlantDiseaseModel.model running_service ≠ PyNone ∧
  (∃ m, PlantDiseaseModel.model running_service = PyModule m ∧
        (torch_load (Framework := F_fallback) "plant_disease_model.pth" =
           Ok (PyModule m) ∨
         resnet18 (Framework := F_fallback) (length CLASS_NAMES) = Ok m)) ∧
  dispatch (F := F_fallback) running_service GET_health = health_ok.
Proof.
  split; [reflexivity|].
  exact (health_after_init (F := F_fallback) "plant_disease_model.pth"
           running_service eq_refl).
Defined.

Lemma inference_exception_gives_generic_500_witness :
  PlantDiseaseModel.predict_try (F := F_inference_error) running_service [] =
    Raise (Exn RuntimeError "CUDA out of memory") ∧
  PlantDiseaseModel.predict (F := F_inference_error) running_service [] = None ∧
  (∀ get_json data image_data image_bytes fresh,
     get_json = Ok data → py_in "image" data = Ok true →
     py_getitem data "image" = Ok image_data →
     decode_image_data (F := F_inference_error) image_data = Ok image_bytes →
     image_open (H := F_inference_error) (BytesIO fresh image_bytes) = Ok [] →
     predict (F := F_inference_error) running_service get_json fresh =
       error_response 500 "Prediction failed") ∧
  (∀ get_json data image_url resp fresh,
     get_json = Ok data → py_in "url" data = Ok true →
     py_getitem data "url" = Ok image_url →
     requests_get (Framework := F_inference_error) image_url = Ok resp →
     raise_for_status (H := F_inference_error) resp = Ok () →
     image_open (H := F_inference_error) (BytesIO fresh (content resp)) =
       Ok [] →
     predict_from_url (F := F_inference_error) running_service get_json fresh =
       error_response 500 "Prediction failed").
Proof.
  split; [reflexivity|].
  exact (inference_exception_gives_generic_500 (F := F_inference_error)
           running_service [] _ eq_refl).
Defined.

Lemma missing_image_field_400_witness :
  ({[ "url" := leaf_url ]} : gmap string json) !! "image" = None ∧
  predict (F := F_index 3) running_service
    (Ok (JObj {[ "url" := leaf_url ]})) 0 =
    error_response 400 "No image provided".
Proof.
  assert (({[ "url" := leaf_url ]} : gmap string json) !! "image" = None) as Hk
    by reflexivity.
  split; [exact Hk|].
  exact (missing_image_field_400 (F := F_index 3) running_service _ 0 Hk).
Defined.

Lemma data_url_prefix_same_prediction_witness :
  is_base64 pixel_gif = true ∧ PyStr.contains "," "gif" = false ∧
  (∀ image_bytes,
     b64decode (Framework := F_index 3) pixel_gif = Ok image_bytes →
     is_Some (image_decode (Framework := F_index 3) image_bytes)) ∧
  strip_data_url
    (JStr ("data:image/" +:+ "gif" +:+ ";base64," +:+ pixel_gif)) =
    Ok pixel_gif ∧
  strip_data_url (JStr pixel_gif) = Ok pixel_gif ∧
  decode_image_data (F := F_index 3)
    (JStr ("data:image/" +:+ "gif" +:+ ";base64," +:+ pixel_gif)) =
    b64decode (Framework := F_index 3) pixel_gif ∧
  decode_image_data (F := F_index 3) (JStr pixel_gif) =
    b64decode (Framework := F_index 3) pixel_gif ∧
  status (predict (F := F_index 3) running_service
    (Ok (JObj (<["image" :=
                 JStr ("data:image/" +:+ "gif" +:+ ";base64," +:+ pixel_gif)]> ∅)))
    1) =
    status (predict (F := F_index 3) running_service
              (Ok (JObj (<["image" := JStr pixel_gif]> ∅))) 2) ∧
  predict (F := F_index 3) running_service
    (Ok (JObj (<["image" :=
                 JStr ("data:image/" +:+ "gif" +:+ ";base64," +:+ pixel_gif)]> ∅)))
    1 =
    predict (F := F_index 3) running_service
      (Ok (JObj (<["image" := JStr pixel_gif]> ∅))) 2.
Proof.
  assert (∀ image_bytes,
            b64decode (Framework := F_index 3) pixel_gif = Ok image_bytes →
            is_Some (image_decode (Framework := F_index 3) image_bytes))
    as Haccepts.
  { intros image_bytes _. by exists image_bytes. }
  destruct (data_url_prefix_same_prediction (F := F_index 3) running_service
              "gif" pixel_gif ∅ 1 2 eq_refl eq_refl)
    as (Hp & Hb & Hdp & Hdb & Hstatus & Hsame).
  split; [reflexivity|]. split; [reflexivity|]. split; [exact Haccepts|].
  split; [exact Hp|]. split; [exact Hb|]. split; [exact Hdp|].
  split; [exact Hdb|]. split; [exact Hstatus|]. exact (Hsame Haccepts).
Defined.

Lemma predict_url_failure_statuses_witness :
  py_in "url" (JObj {[ "url" := leaf_url ]}) = Ok true ∧
  py_getitem (JObj {[ "url" := leaf_url ]}) "url" = Ok leaf_url ∧
  requests_get (Framework := F_index 3) leaf_url =
    Raise (Exn ConnectionError "Max retries exceeded") ∧
  predict_from_url (F := F_index 3) running_service
    (Ok (JObj {[ "url" := leaf_url ]})) 0 =
    error_response 400 "Failed to download image: Max retries exceeded".
Proof.
  assert (py_in "url" (JObj {[ "url" := leaf_url ]}) = Ok true) as Hin
    by reflexivity.
  assert (py_getitem (JObj {[ "url" := leaf_url ]}) "url" = Ok leaf_url) as Hget
    by reflexivity.
  split; [exact Hin|]. split; [exact Hget|]. split; [reflexivity|].
  exact (proj1 (proj1 (predict_url_failure_statuses (F := F_index 3)
                         running_service _ _ _ 0 eq_refl Hin Hget)
                  _ eq_refl eq_refl)).
Defined.

(** C10, as first stated, fails: an empty array passes the membership
    test without an exception and is answered 400, as is a string
    without "image" in it. *)
Lemma array_body_is_answered_400 :
  py_in "image" (JArr []) = Ok false ∧
  predict (F := F_index 3) running_service (Ok (JArr [])) 0 =
    error_response 400 "No image provided" ∧
  predict (F := F_index 3) running_service (Ok (JStr "leaf")) 0 =
    error_response 400 "No image provided".
Proof. split_and!; reflexivity. Qed.

(** * Further facts about the string operations *)
Module MoreStrFacts.
Import PyStr PyStrFacts.
#[local] Arguments String.append : simpl nomatch.

Lemma length_map f (s : string) : String.length (map f s) = String.length s.
Proof. induction s as [|x s IH]; simpl; [done | by rewrite IH]. Qed.


Lemma prefix_cons (a y : ascii) (p s : string) :
  String.prefix (String a p) (String y s) =
    if ascii_dec a y then String.prefix p s else false.
Proof. done. Qed.





(** The replaced character is gone from the result. *)
Lemma subst_char_absent (old new : ascii) (s : string) :
  old ≠ new →
  contains (String old EmptyString) (map (subst_char old new) s) = false.
Proof.
  intros Hne. induction s as [|x s IH]; [done|].
  cbn [map contains]. rewrite IH, orb_false_r, prefix_cons.
  destruct (ascii_dec old (subst_char old new x)) as [Heq|]; [|done].
  exfalso. unfold subst_char in Heq.
  destruct (Ascii.eqb_spec x old); congruence.
Qed.


Lemma split_one (sep s : string) :
  sep ≠ EmptyString → contains sep s = false → split sep s = [s].
Proof.
  intros Hsep Hs. rewrite split_unfold by done.
  apply cut_None in Hs. by rewrite Hs.
Qed.

End MoreStrFacts.

(** * More on the label decomposer *)
Section LabelExtras.
Import PyStr PyStrFacts MoreStrFacts LabelFacts.

(** With two segments or more, the first is the plant and the second the
    condition; what follows them is not looked at. *)
Lemma make_result_segments (label plant cond : string) (t : list string)
    (conf : float) :
  split "___" label = plant :: cond :: t →
  PlantDiseaseModel.make_result label conf =
    Ok {| className := label;
          confidence := conf;
          isHealthy := contains "healthy" (lower label);
          plantType := underscores_to_spaces plant;
          diseaseType :=
            if contains "healthy" (lower label) then None
            else Some (underscores_to_spaces cond) |}.
Proof.
  intros Hs. rewrite make_result_eq, Hs. f_equal.
  assert (first_segment label = plant) as ->.
  { unfold first_segment. rewrite split_unfold in Hs by done.
    destruct (cut "___" label) as [[b a]|]; by simplify_eq. }
  destruct (contains "healthy" (lower label)) eqn:Hh; [done|].
  destruct (contains "healthy" (lower cond)) eqn:Hc; [|done].
  pose proof (healthy_segment_healthy_label _ _ _ _ Hs Hc). congruence.
Qed.

Lemma first_segment_length (label : string) :
  (String.length (first_segment label) ≤ String.length label)%nat.
Proof.
  unfold first_segment. destruct (cut "___" label) as [[b a]|] eqn:Hc; [|done].
  apply cut_Some in Hc as ->. rewrite length_app. lia.
Qed.

(** X1. Whatever the label, the decomposition leaves no underscore in
    [plantType] nor in a present [diseaseType], and [plantType] is no
    longer than the label. *)
Theorem decomposition_has_no_underscore (label : string) (conf : float) :
  ∃ r, PlantDiseaseModel.make_result label conf = Ok r ∧
       contains "_" (plantType r) = false ∧
       (∀ d, diseaseType r = Some d → contains "_" d = false) ∧
       (String.length (plantType r) ≤ String.length label)%nat.
Proof.
  eexists. split; [apply make_result_eq|].
  cbn [plantType diseaseType]. unfold underscores_to_spaces. split_and!.
  - by apply subst_char_absent.
  - intros d Hd. repeat case_match; simplify_eq; by apply subst_char_absent.
  - rewrite length_map. apply first_segment_length.
Qed.





Lemma catalog_two_segments (label : string) :
  label ∈ CLASS_NAMES →
  ∃ plant cond, split "___" label = [plant; cond] ∧
    plant ≠ EmptyString ∧ cond ≠ EmptyString ∧
    contains "healthy" (lower label) = bool_decide (cond = "healthy").
Proof.
  revert label. apply Forall_forall. unfold CLASS_NAMES.
  repeat (apply Forall_cons; split;
          [eexists _, _; split_and!; [reflexivity | done | done | reflexivity]|]).
  apply Forall_nil_2.
Qed.

(** X4. On the catalog the substring heuristic is exact: every label has
    exactly two segments, neither empty; it is flagged healthy exactly
    when its second segment is the word "healthy"; [plantType] is the
    first segment and [diseaseType], for the others, the second. *)
Theorem catalog_health_is_exact (label : string) (conf : float) :
  label ∈ CLASS_NAMES →
  ∃ r plant cond,
    PlantDiseaseModel.make_result label conf = Ok r ∧
    split "___" label = [plant; cond] ∧
    plant ≠ EmptyString ∧ cond ≠ EmptyString ∧
    isHealthy r = bool_decide (cond = "healthy") ∧
    plantType r = underscores_to_spaces plant ∧
    diseaseType r =
      if isHealthy r then None else Some (underscores_to_spaces cond).
Proof.
  intros (plant & cond & Hs & Hp & Hc & Hh)%catalog_two_segments.
  eexists _, plant, cond. split; [by eapply make_result_segments|].
  by cbn [isHealthy plantType diseaseType].
Qed.

Lemma catalog_health_is_exact_witness :
  "Grape___Esca_(Black_Measles)" ∈ CLASS_NAMES ∧
  ∃ r plant cond,
    PlantDiseaseModel.make_result "Grape___Esca_(Black_Measles)" three_quarters =
      Ok r ∧
    split "___" "Grape___Esca_(Black_Measles)" = [plant; cond] ∧
    plant ≠ EmptyString ∧ cond ≠ EmptyString ∧
    isHealthy r = bool_decide (cond = "healthy") ∧
    plantType r = underscores_to_spaces plant ∧
    diseaseType r =
      if isHealthy r then None else Some (underscores_to_spaces cond).
Proof.
  assert ("Grape___Esca_(Black_Measles)" ∈ CLASS_NAMES) as Hin.
  { apply (bool_decide_unpack _). vm_compute. exact I. }
  split; [exact Hin | exact (catalog_health_is_exact _ _ Hin)].
Defined.

End LabelExtras.

(** * More on the loader *)
Section LoaderExtras.
Context {Model Image : Type} {F : Framework Model Image}.

(** X5. When [torch.load] succeeds but hands back something that is not a
    module ([None], a bare state dict), the loader does not stop: the
    untrained fallback network is put in place. *)
Theorem load_model_non_module_falls_back (model_path : string)
    (loaded : pyobj Model) (dummy : Model) :
  torch_load model_path = Ok loaded →
  (∀ m, loaded ≠ PyModule m) →
  resnet18 (length CLASS_NAMES) = Ok dummy →
  PlantDiseaseModel.__init__ model_path =
    Ok {| PlantDiseaseModel.model := PyModule dummy |}.
Proof.
  intros Hl Hnm Hd.
  unfold PlantDiseaseModel.__init__, PlantDiseaseModel.load_model, try_except.
  rewrite Hl. destruct loaded as [|m|]; [|by destruct (Hnm m)|];
    cbn -[CLASS_NAMES]; by rewrite Hd.
Qed.

(** X6. Initialisation raises exactly when no module was loaded and the
    fallback network cannot be built either; the exception is then the
    one of the fallback, the loading error being logged and dropped. *)
Theorem load_model_raises_iff (model_path : string) (e : exn) :
  PlantDiseaseModel.__init__ model_path = Raise e ↔
    (∀ m, torch_load model_path ≠ Ok (PyModule m)) ∧
    resnet18 (length CLASS_NAMES) = Raise e.
Proof.
  unfold PlantDiseaseModel.__init__, PlantDiseaseModel.load_model, try_except.
  destruct (torch_load model_path) as [[|m|]|e0] eqn:Hl; cbn -[CLASS_NAMES];
    try (destruct (resnet18 (length CLASS_NAMES)) as [dummy|e1] eqn:Hd;
         cbn -[CLASS_NAMES]);
    try (split; [done | by intros [_ ?]]);
    try (split; [by intros [= ->] | by intros [_ [= ->]]]).
  split; [done|]. intros [Hnm _]. by destruct (Hnm m).
Qed.

End LoaderExtras.

Lemma load_model_non_module_falls_back_witness :
  torch_load (Framework := F_state_dict) "plant_disease_model.pth" = Ok PyOther ∧
  (∀ m : unit, PyOther ≠ PyModule m) ∧
  resnet18 (Framework := F_state_dict) (length CLASS_NAMES) = Ok () ∧
  PlantDiseaseModel.__init__ (F := F_state_dict) "plant_disease_model.pth" =
    Ok {| PlantDiseaseModel.model := PyModule () |}.
Proof.
  assert (∀ m : unit, @PyOther unit ≠ PyModule m) as Hnm by (intros m; discriminate).
  split; [reflexivity|]. split; [exact Hnm|]. split; [reflexivity|].
  exact (load_model_non_module_falls_back (F := F_state_dict)
           "plant_disease_model.pth" PyOther () eq_refl Hnm eq_refl).
Defined.

(** * More on the handlers *)

(** Splitting a handler into the outcomes of its calls. *)
Ltac handler_cases :=
  unfold predict, predict_from_url, decode_image_data,
    mbind, result_bind, mret, result_ret;
  repeat case_match; simplify_eq.

Ltac destruct_predict :=
  match goal with
  | |- context [PlantDiseaseModel.predict ?self ?image] =>
      destruct (PlantDiseaseModel.predict self image)
  | H : context [PlantDiseaseModel.predict ?self ?image] |- _ =>
      destruct (PlantDiseaseModel.predict self image)
  end.

Lemma jsonify_error_inj (a b : string) :
  jsonify_error a = jsonify_error b → a = b.
Proof.
  intros H.
  apply (f_equal (λ j, match j with
                       | JObj fields => fields !! "error"
                       | _ => None
                       end)) in H.
  cbv beta iota delta [jsonify_error] in H.
  rewrite !lookup_singleton_eq in H. congruence.
Qed.

Lemma error_response_inj (c1 c2 : Z) (a b : string) :
  error_response c1 a = error_response c2 b → c1 = c2 ∧ a = b.
Proof.
  intros H. split.
  - by apply (f_equal status) in H.
  - apply (f_equal body) in H. by apply jsonify_error_inj.
Qed.

Lemma py_index_Ok_inv {A} (l : list A) (i : Z) (x : A) :
  py_index l i = Ok x →
  - Z.of_nat (length l) ≤ i < Z.of_nat (length l) ∧
  l !! Z.to_nat (i mod Z.of_nat (length l)) = Some x.
Proof.
  unfold py_index. cbv zeta. set (n := Z.of_nat (length l)).
  destruct (Z.ltb_spec i 0) as [Hneg|Hpos].
  - destruct (Z.ltb_spec (i + n) 0); cbn [orb]; [done|].
    destruct (Z.leb_spec n (i + n)); [done|].
    destruct (l !! Z.to_nat (i + n)) as [y|] eqn:Hl; [|done]. intros [= <-].
    split; [lia|]. replace (i mod n) with (i + n); [done|].
    apply Z.mod_unique with (q := -1); lia.
  - destruct (Z.ltb_spec i 0); cbn [orb]; [done|].
    destruct (Z.leb_spec n i); [done|].
    destruct (l !! Z.to_nat i) as [y|] eqn:Hl; [|done]. intros [= <-].
    split; [lia|]. by rewrite Z.mod_small by lia.
Qed.

Section HandlerExtras.
Context {Model Image : Type} {F : Framework Model Image}.
Implicit Types (self ms : @PlantDiseaseModel.t Model) (image : Image).
Import LabelFacts.

Lemma respond_shape ms image :
  diagnosis_response (respond (PlantDiseaseModel.predict ms image)) ∨
  failure_response (respond (PlantDiseaseModel.predict ms image)).
Proof.
  destruct (PlantDiseaseModel.predict ms image) as [r|] eqn:Hp; cbn [respond].
  - left. split; [done|]. exists r. split; [done|].
    by eapply predict_Some_catalog.
  - right. split; [by right | by eexists].
Qed.

Lemma error_response_shape (code : Z) (msg : string) :
  code = 400 ∨ code = 500 → failure_response (error_response code msg).
Proof. intros Hc. split; [done | by eexists]. Qed.

(** X7. Every answer of a prediction route has one of two shapes: status
    200 with the diagnosis of a catalog label, or status 400 or 500 with
    an error body; [/health] always answers 200. No other status is ever
    produced. *)
Theorem every_response_is_diagnosis_or_failure ms (req : request) :
  match req with
  | GET_health => status (dispatch ms req) = 200
  | _ => diagnosis_response (dispatch ms req) ∨
         failure_response (dispatch ms req)
  end.
Proof.
  destruct req as [|get_json|get_json]; cbn [dispatch]; [done|..];
    handler_cases;
    first [ apply respond_shape
          | right; apply error_response_shape; auto ].
Qed.

(** X8. [/predict] answers 400 exactly when the body was parsed and the
    membership test for "image" came out false without raising, and then
    the body of the answer is the fixed "No image provided". *)
Theorem predict_400_iff ms (get_json : result json) (fresh : Z) :
  (status (predict ms get_json fresh) = 400 ↔
     ∃ data, get_json = Ok data ∧ py_in "image" data = Ok false) ∧
  (status (predict ms get_json fresh) = 400 →
     predict ms get_json fresh = error_response 400 "No image provided").
Proof.
  split.
  - split.
    + handler_cases; try done.
      * intros _. eexists. split; [done|]. by destruct a1.
      * by destruct_predict.
    + intros (data & -> & Hin). unfold predict. run_bind. by step Hin.
  - handler_cases; try done. by destruct_predict.
Qed.

(** X9. A 400 from [/predict_url] means one of two things: the "url"
    field was missing, or an exception of the HTTP client's family was
    raised, whose text follows "Failed to download image: ". *)
Theorem predict_from_url_400_cases ms (get_json : result json) (fresh : Z) :
  status (predict_from_url ms get_json fresh) = 400 →
  predict_from_url ms get_json fresh =
    error_response 400 "No image URL provided" ∨
  ∃ e, is_RequestException (exn_cls e) = true ∧
       predict_from_url ms get_json fresh =
         error_response 400 ("Failed to download image: " +:+ exn_str e).
Proof.
  handler_cases; try done; eauto.
  by destruct_predict.
Qed.

(** X10. For an object body, [/predict_url] gives the answer 400 "No
    image URL provided" exactly when the object has no "url" key. *)
Theorem missing_url_field_400_iff ms (fields : gmap string json) (fresh : Z) :
  predict_from_url ms (Ok (JObj fields)) fresh =
    error_response 400 "No image URL provided" ↔
  fields !! "url" = None.
Proof.
  split.
  - destruct (fields !! "url") as [v|] eqn:Hk; [|done].
    unfold predict_from_url. cbn [mbind result_bind py_in py_getitem].
    rewrite Hk, bool_decide_eq_true_2 by eauto. run_bind.
    handler_cases; intros Heq;
      try (apply error_response_inj in Heq as [? ?]; done).
    by destruct_predict.
  - intros Hk. unfold predict_from_url. cbn [mbind result_bind py_in].
    rewrite Hk. by rewrite bool_decide_eq_false_2 by (by intros [? ?]).
Qed.

(** X11. An "image" field that is not a string is answered 500 with the
    text of the attribute error. *)
Theorem non_string_image_field_500 ms (fields : gmap string json) (v : json)
    (fresh : Z) :
  fields !! "image" = Some v → (∀ s, v ≠ JStr s) →
  predict ms (Ok (JObj fields)) fresh =
    error_response 500
      ("'" +:+ type_name v +:+ "' object has no attribute 'startswith'").
Proof.
  intros Hk Hv. unfold predict. cbn [mbind result_bind py_in py_getitem].
  rewrite Hk, bool_decide_eq_true_2 by eauto. run_bind.
  unfold decode_image_data. destruct v; try done. by destruct (Hv s).
Qed.

(** X12. A field that starts with "data:image" but has no comma is
    answered 500 with the text of the index error. *)
Theorem data_url_without_comma_500 ms (fields : gmap string json) (s : string)
    (fresh : Z) :
  fields !! "image" = Some (JStr s) →
  PyStr.startswith "data:image" s = true → PyStr.contains "," s = false →
  predict ms (Ok (JObj fields)) fresh =
    error_response 500 "list index out of range".
Proof.
  intros Hk Hs Hc. unfold predict. cbn [mbind result_bind py_in py_getitem].
  rewrite Hk, bool_decide_eq_true_2 by eauto. run_bind.
  unfold decode_image_data, strip_data_url. rewrite Hs.
  by rewrite MoreStrFacts.split_one.
Qed.

Lemma strip_data_url_truncates (h p rest : string) :
  PyStr.contains "," h = false → PyStr.contains "," p = false →
  strip_data_url (JStr ("data:image" +:+ h +:+ "," +:+ p +:+ "," +:+ rest)) =
    Ok p.
Proof.
  intros Hh Hp. unfold strip_data_url.
  assert (PyStr.startswith "data:image"
            ("data:image" +:+ h +:+ "," +:+ p +:+ "," +:+ rest) = true) as ->
    by apply PyStrFacts.prefix_app.
  assert ("data:image" +:+ h +:+ "," +:+ p +:+ "," +:+ rest =
          ("data:image" +:+ h) +:+ String "," (p +:+ String "," rest)) as ->
    by (by rewrite !PyStrFacts.app_assoc).
  rewrite PyStrFacts.split_unfold, PyStrFacts.cut_char_app by
    (done || by rewrite PyStrFacts.contains_char_app, Hh).
  rewrite PyStrFacts.split_unfold, PyStrFacts.cut_char_app by done.
  by rewrite (py_index_nat _ 1).
Qed.

(** X13. After a data-URL header only the text up to the next comma is
    decoded: for a header and a payload without a comma, what reaches the
    base64 decoder is the payload, and whatever follows a second comma is
    discarded. *)
Theorem data_url_second_comma_truncates (h p rest : string) :
  PyStr.contains "," h = false → PyStr.contains "," p = false →
  strip_data_url (JStr ("data:image" +:+ h +:+ "," +:+ p +:+ "," +:+ rest)) =
    Ok p ∧
  decode_image_data
    (JStr ("data:image" +:+ h +:+ "," +:+ p +:+ "," +:+ rest)) = b64decode p.
Proof.
  intros Hh Hp. split; [by apply strip_data_url_truncates|].
  unfold decode_image_data. by rewrite strip_data_url_truncates.
Qed.

(** X14. When the base64 decoder or the image decoder raises, [/predict]
    answers 500 and hands the exception's own text to the client. *)
Theorem decode_failure_echoes_exception ms (fields : gmap string json)
    (image_data : json) (e : exn) (fresh : Z) :
  fields !! "image" = Some image_data →
  decode_image_data image_data = Raise e ∨
    (∃ image_bytes, decode_image_data image_data = Ok image_bytes ∧
                    image_open (BytesIO fresh image_bytes) = Raise e) →
  predict ms (Ok (JObj fields)) fresh = error_response 500 (exn_str e).
Proof.
  intros Hk Hfail. unfold predict. cbn [mbind result_bind py_in py_getitem].
  rewrite Hk, bool_decide_eq_true_2 by eauto. run_bind.
  destruct Hfail as [Hd|(image_bytes & Hd & Ho)]; step Hd; [done|].
  by step Ho.
Qed.

(** X15. A key other than "image" makes no difference to [/predict]:
    the request with the extra key and the one without it get the same
    status, and the same answer unless that answer is a 500 (whose text
    may name the buffer of its own request). *)
Theorem other_keys_are_ignored ms (fields : gmap string json)
    (k : string) (v : json) (fresh1 fresh2 : Z) :
  k ≠ "image" →
  status (predict ms (Ok (JObj (<[k := v]> fields))) fresh1) =
    status (predict ms (Ok (JObj fields)) fresh2) ∧
  (status (predict ms (Ok (JObj fields)) fresh2) ≠ 500 →
   predict ms (Ok (JObj (<[k := v]> fields))) fresh1 =
     predict ms (Ok (JObj fields)) fresh2).
Proof.
  intros Hk. unfold predict. cbn [mbind result_bind py_in py_getitem].
  rewrite !lookup_insert_ne by done.
  destruct (fields !! "image") as [image_data|] eqn:Hi.
  - rewrite !bool_decide_eq_true_2 by eauto. run_bind.
    destruct (decode_image_data image_data) as [image_bytes|e]; run_bind;
      [|done].
    unfold image_open. cbn [buf_value].
    by destruct (image_decode image_bytes).
  - by rewrite !bool_decide_eq_false_2 by (by intros [? ?]).
Qed.

(** X16. A diagnosis that the predictor returns carries the confidence of
    the forward pass unchanged and the catalog entry at the predicted
    index, an index that lies between -39 and 38 and counts from the end
    when negative. *)
Theorem predict_Some_origin self image (r : DiagnosisResult) :
  PlantDiseaseModel.predict self image = Some r →
  ∃ m idx,
    PlantDiseaseModel.model self = PyModule m ∧
    forward m image = Ok (confidence r, idx) ∧
    -39 ≤ idx < 39 ∧
    CLASS_NAMES !! Z.to_nat (idx mod 39) = Some (className r).
Proof.
  intros (conf & idx & label & Hrun & Hi & Hr)%predict_Some_inv.
  rewrite make_result_eq in Hr. injection Hr as <-.
  cbn [confidence className]. unfold PlantDiseaseModel.run_model in Hrun.
  destruct (PlantDiseaseModel.model self) as [|m|] eqn:Hm; [done| |done].
  apply py_index_Ok_inv in Hi as [Hrange Hl].
  by exists m, idx.
Qed.

(** X17. [/predict_url] with a body that is not an object: null, a
    boolean or a number makes the membership test raise, answered 500; a
    string or an array without "url" in it is answered 400 "No image URL
    provided"; with it, the subscript raises, answered 500. The type
    errors are not of the HTTP client's family, so never 400. *)
Theorem predict_from_url_non_object_body ms (data : json) (fresh : Z) :
  match data with
  | JObj _ => True
  | JStr s =>
      if PyStr.contains "url" s
      then ∃ e, py_getitem data "url" = Raise e ∧
                predict_from_url ms (Ok data) fresh =
                  error_response 500 (exn_str e)
      else predict_from_url ms (Ok data) fresh =
             error_response 400 "No image URL provided"
  | JArr items =>
      if existsb (str_eq_json "url") items
      then ∃ e, py_getitem data "url" = Raise e ∧
                predict_from_url ms (Ok data) fresh =
                  error_response 500 (exn_str e)
      else predict_from_url ms (Ok data) fresh =
             error_response 400 "No image URL provided"
  | _ => ∃ e, py_in "url" data = Raise e ∧
              predict_from_url ms (Ok data) fresh =
                error_response 500 (exn_str e)
  end.
Proof.
  destruct data as [| b | n | x | s | items | fields];
    [eexists; split; reflexivity.. | | | done].
  - unfold predict_from_url. cbn [mbind result_bind py_in].
    destruct (PyStr.contains "url" s); [|done].
    eexists; split; reflexivity.
  - unfold predict_from_url. cbn [mbind result_bind py_in].
    destruct (existsb (str_eq_json "url") items); [|done].
    eexists; split; reflexivity.
Qed.

(** X18. The two prediction routes agree on the same image: when the
    download succeeds with a success status, the bare base64 string of
    the other request decodes to the downloaded content and the image
    decoder accepts that content, both requests get the same answer. *)
Theorem url_and_base64_routes_agree ms (fields_u fields_i : gmap string json)
    (image_url : json) (resp : http_response) (s : string) (image : Image)
    (fresh1 fresh2 : Z) :
  fields_u !! "url" = Some image_url →
  requests_get image_url = Ok resp → raise_for_status resp = Ok () →
  fields_i !! "image" = Some (JStr s) →
  PyStr.startswith "data:image" s = false →
  b64decode s = Ok (content resp) →
  image_decode (content resp) = Some image →
  predict_from_url ms (Ok (JObj fields_u)) fresh1 =
    predict ms (Ok (JObj fields_i)) fresh2.
Proof.
  intros Hu Hget Hst Hi Hs Hb Himage.
  unfold predict, predict_from_url. cbn [mbind result_bind py_in py_getitem].
  rewrite Hu, Hi, !bool_decide_eq_true_2 by eauto. run_bind.
  step Hget. step Hst. unfold decode_image_data.
  rewrite strip_data_url_bare by done. run_bind. step Hb.
  unfold image_open. cbn [buf_value]. by rewrite Himage.
Qed.

End HandlerExtras.

(** * The further theorems at concrete requests *)

Lemma predict_from_url_400_cases_witness :
  status (predict_from_url (F := F_index 3) running_service
            (Ok (JObj {[ "url" := leaf_url ]})) 0) = 400 ∧
  (predict_from_url (F := F_index 3) running_service
     (Ok (JObj {[ "url" := leaf_url ]})) 0 =
     error_response 400 "No image URL provided" ∨
   ∃ e, is_RequestException (exn_cls e) = true ∧
        predict_from_url (F := F_index 3) running_service
          (Ok (JObj {[ "url" := leaf_url ]})) 0 =
          error_response 400 ("Failed to download image: " +:+ exn_str e)).
Proof.
  split; [reflexivity|].
  exact (predict_from_url_400_cases (F := F_index 3) running_service
           (Ok (JObj {[ "url" := leaf_url ]})) 0 eq_refl).
Defined.

Lemma non_string_image_field_500_witness :
  ({[ "image" := JInt 42 ]} : gmap string json) !! "image" = Some (JInt 42) ∧
  (∀ s, JInt 42 ≠ JStr s) ∧
  predict (F := F_index 3) running_service
    (Ok (JObj {[ "image" := JInt 42 ]})) 0 =
    error_response 500
      ("'" +:+ type_name (JInt 42) +:+ "' object has no attribute 'startswith'").
Proof.
  assert (∀ s, JInt 42 ≠ JStr s) as Hv by (intros s; discriminate).
  split; [reflexivity|]. split; [exact Hv|].
  exact (non_string_image_field_500 (F := F_index 3) running_service
           {[ "image" := JInt 42 ]} (JInt 42) 0 eq_refl Hv).
Defined.

Lemma data_url_without_comma_500_witness :
  ({[ "image" := JStr "data:image/png;base64" ]} : gmap string json) !! "image" =
    Some (JStr "data:image/png;base64") ∧
  PyStr.startswith "data:image" "data:image/png;base64" = true ∧
  PyStr.contains "," "data:image/png;base64" = false ∧
  predict (F := F_index 3) running_service
    (Ok (JObj {[ "image" := JStr "data:image/png;base64" ]})) 0 =
    error_response 500 "list index out of range".
Proof.
  split; [reflexivity|]. split; [reflexivity|]. split; [reflexivity|].
  exact (data_url_without_comma_500 (F := F_index 3) running_service
           {[ "image" := JStr "data:image/png;base64" ]}
           "data:image/png;base64" 0 eq_refl eq_refl eq_refl).
Defined.

Lemma data_url_second_comma_truncates_witness :
  PyStr.contains "," "/png;base64" = false ∧
  PyStr.contains "," "AAAA" = false ∧
  strip_data_url
    (JStr ("data:image" +:+ "/png;base64" +:+ "," +:+ "AAAA" +:+ "," +:+ "BBBB")) =
    Ok "AAAA" ∧
  decode_image_data (F := F_index 3)
    (JStr ("data:image" +:+ "/png;base64" +:+ "," +:+ "AAAA" +:+ "," +:+ "BBBB")) =
    b64decode (Framework := F_index 3) "AAAA".
Proof.
  split; [reflexivity|]. split; [reflexivity|].
  exact (data_url_second_comma_truncates (F := F_index 3)
           "/png;base64" "AAAA" "BBBB" eq_refl eq_refl).
Defined.

Lemma decode_failure_echoes_exception_witness :
  ({[ "image" := JStr "@@@" ]} : gmap string json) !! "image" = Some (JStr "@@@") ∧
  decode_image_data (F := F_bad_base64) (JStr "@@@") =
    Raise (Exn ValueError "Incorrect padding") ∧
  predict (F := F_bad_base64) running_service
    (Ok (JObj {[ "image" := JStr "@@@" ]})) 0 =
    error_response 500 "Incorrect padding".
Proof.
  split; [reflexivity|]. split; [reflexivity|].
  exact (decode_failure_echoes_exception (F := F_bad_base64) running_service
           {[ "image" := JStr "@@@" ]} (JStr "@@@")
           (Exn ValueError "Incorrect padding") 0 eq_refl (or_introl eq_refl)).
Defined.

Lemma other_keys_are_ignored_witness :
  "note" ≠ "image" ∧
  status (predict (F := F_index 3) running_service
            (Ok (JObj {[ "image" := JStr pixel_gif ]})) 2) ≠ 500 ∧
  status (predict (F := F_index 3) running_service
            (Ok (JObj (<["note" := JNull]> {[ "image" := JStr pixel_gif ]}))) 1) =
    status (predict (F := F_index 3) running_service
              (Ok (JObj {[ "image" := JStr pixel_gif ]})) 2) ∧
  predict (F := F_index 3) running_service
    (Ok (JObj (<["note" := JNull]> {[ "image" := JStr pixel_gif ]}))) 1 =
    predict (F := F_index 3) running_service
      (Ok (JObj {[ "image" := JStr pixel_gif ]})) 2.
Proof.
  assert ("note" ≠ "image") as Hi by discriminate.
  assert (status (predict (F := F_index 3) running_service
                    (Ok (JObj {[ "image" := JStr pixel_gif ]})) 2) ≠ 500)
    as Hanswered.
  { assert (status (predict (F := F_index 3) running_service
                      (Ok (JObj {[ "image" := JStr pixel_gif ]})) 2) = 200)
      as -> by reflexivity.
    discriminate. }
  destruct (other_keys_are_ignored (F := F_index 3) running_service
              {[ "image" := JStr pixel_gif ]} "note" JNull 1 2 Hi)
    as [Hstatus Hsame].
  split; [exact Hi|]. split; [exact Hanswered|]. split; [exact Hstatus|].
  exact (Hsame Hanswered).
Defined.

Lemma predict_Some_origin_witness :
  PlantDiseaseModel.predict (F := F_index 28) running_service [] =
    Some {| className := "Strawberry___healthy"; confidence := three_quarters;
            isHealthy := true; plantType := "Strawberry";
            diseaseType := None |} ∧
  ∃ m idx,
    PlantDiseaseModel.model running_service = PyModule m ∧
    forward (Framework := F_index 28) m [] = Ok (three_quarters, idx) ∧
    -39 ≤ idx < 39 ∧
    CLASS_NAMES !! Z.to_nat (idx mod 39) = Some "Strawberry___healthy".
Proof.
  split; [reflexivity|].
  exact (predict_Some_origin (F := F_index 28) running_service [] _ eq_refl).
Defined.

Lemma url_and_base64_routes_agree_witness :
  ({[ "url" := leaf_url ]} : gmap string json) !! "url" = Some leaf_url ∧
  requests_get (Framework := F_download (String.list_byte_of_string pixel_gif))
    leaf_url =
    Ok {| status_code := 200; content := String.list_byte_of_string pixel_gif |} ∧
  ({[ "image" := JStr pixel_gif ]} : gmap string json) !! "image" =
    Some (JStr pixel_gif) ∧
  PyStr.startswith "data:image" pixel_gif = false ∧
  image_decode (Framework := F_download (String.list_byte_of_string pixel_gif))
    (String.list_byte_of_string pixel_gif) =
    Some (String.list_byte_of_string pixel_gif) ∧
  predict_from_url (F := F_download (String.list_byte_of_string pixel_gif))
    running_service (Ok (JObj {[ "url" := leaf_url ]})) 1 =
  predict (F := F_download (String.list_byte_of_string pixel_gif))
    running_service (Ok (JObj {[ "image" := JStr pixel_gif ]})) 2.
Proof.
  split; [reflexivity|]. split; [reflexivity|]. split; [reflexivity|].
  split; [reflexivity|]. split; [reflexivity|].
  exact (url_and_base64_routes_agree
           (F := F_download (String.list_byte_of_string pixel_gif))
           running_service {[ "url" := leaf_url ]} {[ "image" := JStr pixel_gif ]}
           leaf_url {| status_code := 200;
                       content := String.list_byte_of_string pixel_gif |}
           pixel_gif (String.list_byte_of_string pixel_gif) 1 2
           eq_refl eq_refl eq_refl eq_refl eq_refl eq_refl eq_refl).
Defined.

(** C8, as first stated, fails: the base64 string "aGVsbG8=" is not an
    image, and the answers to the prefixed and to the bare request, each
    with a buffer of its own, are two 500s with different texts. *)
Lemma data_url_prefix_error_texts_differ :
  is_base64 "aGVsbG8=" = true ∧
  predict (F := F_not_an_image) running_service
    (Ok (JObj {[ "image" := JStr "data:image/jpeg;base64,aGVsbG8=" ]})) 1 ≠
  predict (F := F_not_an_image) running_service
    (Ok (JObj {[ "image" := JStr "aGVsbG8=" ]})) 2.
Proof.
  split; [reflexivity|].
  assert (predict (F := F_not_an_image) running_service
            (Ok (JObj {[ "image" := JStr "data:image/jpeg;base64,aGVsbG8=" ]})) 1 =
          error_response 500
            "cannot identify image file <_io.BytesIO object at 1>") as ->
    by reflexivity.
  assert (predict (F := F_not_an_image) running_service
            (Ok (JObj {[ "image" := JStr "aGVsbG8=" ]})) 2 =
          error_response 500
            "cannot identify image file <_io.BytesIO object at 2>") as ->
    by reflexivity.
  by intros [_ ?]%error_response_inj.
Qed.

(** * The client script *)

(** Running the script one call at a time. *)
Ltac run_io :=
  cbn [mbind io_bind mret io_ret try_io call print report outcome printed app].
Ltac io_step H := rewrite ?H; run_io.

Section TestBackendFacts.
Context {C : TestClient}.

Lemma outcome_bind {A B} (m : io A) (f : A → io B) :
  outcome (m ≫= f) =
    match outcome m with
    | Ok a => outcome (f a)
    | Raise e => Raise e
    end.
Proof. unfold mbind, io_bind. by destruct (outcome m). Qed.

Lemma printed_bind {A B} (m : io A) (f : A → io B) :
  printed (m ≫= f) =
    match outcome m with
    | Ok a => printed m ++ printed (f a)
    | Raise e => printed m
    end.
Proof. unfold mbind, io_bind. by destruct (outcome m). Qed.

(** A prediction block never lets an exception out. *)
Lemma probe_block_outcome (body : io unit) (failed : string) :
  outcome (try_io body (λ e, print (failed +:+ exn_str e))) = Ok ().
Proof.
  unfold try_io. destruct (outcome body) as [[]|e] eqn:Hb; [done|].
  by cbn [outcome print].
Qed.

(** X19. The script never returns a true value and never raises: it
    returns [False] exactly when the health request raises or its body is
    not JSON, and [None] otherwise, whatever the two prediction requests
    do. *)
Theorem test_backend_return_value :
  ∃ ret, outcome test_backend = Ok ret ∧ ret ≠ Some true ∧
    (ret = Some false ↔
       (∃ e, client_get (base_url +:+ "/health") = Raise e) ∨
       (∃ response e, client_get (base_url +:+ "/health") = Ok response ∧
                      c_json response = Raise e)).
Proof.
  unfold test_backend.
  set (image_block := try_io (call green_jpeg_base64 ≫= _) _).
  set (url_block := try_io (call (client_post _ url_payload) ≫= _) _).
  assert (outcome image_block = Ok ()) as Hi by apply probe_block_outcome.
  assert (outcome url_block = Ok ()) as Hu by apply probe_block_outcome.
  clearbody image_block url_block.
  destruct (client_get (base_url +:+ "/health")) as [response|e] eqn:Hg;
    [destruct (c_json response) as [body|e] eqn:Hj|]; run_io.
  - io_step Hj. rewrite outcome_bind, Hi. cbn [outcome].
    rewrite outcome_bind, Hu. run_io.
    exists None. split; [done|]. split; [done|]. split; [done|].
    intros [[e ?]|(r & e & [= <-] & ?)]; congruence.
  - io_step Hj. exists (Some false). split; [done|]. split; [done|].
    split; [|done]. intros _. right. by exists response, e.
  - exists (Some false). split; [done|]. split; [done|].
    split; [|done]. intros _. left. by exists e.
Qed.

(** X20. When the health request fails, the script stops there: it
    prints the failure and returns [False] without making either
    prediction request. *)
Theorem health_failure_stops_the_script (e : exn) :
  client_get (base_url +:+ "/health") = Raise e ∨
    (∃ response, client_get (base_url +:+ "/health") = Ok response ∧
                 c_json response = Raise e) →
  test_backend =
    IO ["Testing health endpoint..."; "Health check failed: " +:+ exn_str e]
       (Ok (Some false)).
Proof.
  unfold test_backend. intros [Hg|(response & Hg & Hj)]; run_io.
  - by io_step Hg.
  - io_step Hg. by io_step Hj.
Qed.

(** X21. Once the health request has passed, the URL request is made
    whatever happened to the image request: the script returns [None],
    and after the line that announces the URL test it prints the failure
    of that request, or first its status. *)
Theorem url_probe_runs_whatever_the_image_probe_does
    (response : client_response) (body : json) :
  client_get (base_url +:+ "/health") = Ok response →
  c_json response = Ok body →
  outcome test_backend = Ok None ∧
  ∃ before after,
    printed test_backend = before ++ nl "Testing URL prediction..." :: after ∧
    (∀ e, client_post (base_url +:+ "/predict_url") url_payload = Raise e →
          after = ["URL prediction test failed: " +:+ exn_str e]) ∧
    (∀ r, client_post (base_url +:+ "/predict_url") url_payload = Ok r →
          head after =
            Some ("URL prediction response: " +:+ str_of_int (c_status_code r))).
Proof.
  intros Hg Hj. unfold test_backend.
  set (image_block := try_io (call green_jpeg_base64 ≫= _) _).
  set (url_block := try_io (call (client_post _ url_payload) ≫= _) _).
  assert (outcome image_block = Ok ()) as Hi by apply probe_block_outcome.
  assert (outcome url_block = Ok ()) as Hu by apply probe_block_outcome.
  clearbody image_block. run_io. io_step Hg. io_step Hj.
  rewrite outcome_bind, printed_bind, Hi. cbn [outcome printed].
  rewrite outcome_bind, printed_bind, Hu. run_io. split; [done|].
  exists ("Testing health endpoint..."
          :: ("Health check: " +:+ str_of_int (c_status_code response)
              +:+ " - " +:+ str_of_json body)
          :: nl "Testing image prediction..." :: printed image_block),
         (printed url_block).
  split; [by rewrite Hi, app_nil_r|]. subst url_block. split.
  - intros e He. by io_step He.
  - intros r Hr. io_step Hr.
    by destruct (c_status_code r =? 200); [destruct (c_json r)|].
Qed.

End TestBackendFacts.

Lemma health_failure_stops_the_script_witness :
  client_get (TestClient := stub_client connection_refused (Ok "AAAA")
                              (Ok ok_response))
    (base_url +:+ "/health") = Raise (Exn ConnectionError "Connection refused") ∧
  test_backend (C := stub_client connection_refused (Ok "AAAA") (Ok ok_response)) =
    IO ["Testing health endpoint...";
        "Health check failed: " +:+ "Connection refused"]
       (Ok (Some false)).
Proof.
  split; [reflexivity|].
  exact (health_failure_stops_the_script
           (C := stub_client connection_refused (Ok "AAAA") (Ok ok_response))
           (Exn ConnectionError "Connection refused") (or_introl eq_refl)).
Defined.

Lemma url_probe_runs_whatever_the_image_probe_does_witness :
  client_get (TestClient := stub_client (Ok ok_response) connection_refused
                              (Ok ok_response))
    (base_url +:+ "/health") = Ok ok_response ∧
  c_json ok_response = Ok JNull ∧
  outcome (test_backend (C := stub_client (Ok ok_response) connection_refused
                                (Ok ok_response))) = Ok None.
Proof.
  split; [reflexivity|]. split; [reflexivity|].
  exact (proj1 (url_probe_runs_whatever_the_image_probe_does
                  (C := stub_client (Ok ok_response) connection_refused
                          (Ok ok_response))
                  ok_response JNull eq_refl eq_refl)).
Defined.

(** * The script against the handlers *)
Section ScriptAndHandlers.
Context {Model Image : Type} {F : Framework Model Image}.
Implicit Types (ms : @PlantDiseaseModel.t Model).

(** X22. The bodies the script posts pass the field checks of the
    handlers: whatever the base64 text, [/predict] never answers the
    script's image body with 400, and [/predict_url] never answers its
    URL body with "No image URL provided". *)
Theorem script_bodies_pass_the_field_checks ms (image_base64 : string)
    (fresh : Z) :
  status (predict ms (Ok (image_payload image_base64)) fresh) ≠ 400 ∧
  predict_from_url ms (Ok url_payload) fresh ≠
    error_response 400 "No image URL provided".
Proof.
  split.
  - unfold predict, image_payload. cbn [mbind result_bind py_in py_getitem].
    rewrite lookup_singleton_eq, bool_decide_eq_true_2 by eauto. run_bind.
    handler_cases; try done. by destruct_predict.
  - unfold predict_from_url, url_payload.
    cbn [mbind result_bind py_in py_getitem].
    rewrite lookup_singleton_eq, bool_decide_eq_true_2 by eauto. run_bind.
    handler_cases; intros Heq;
      try (apply error_response_inj in Heq as [? ?]; done).
    by destruct_predict.
Qed.

End ScriptAndHandlers.
